(** * codelens: the selected-item tree view

    A shallow embedding of the extension's provider module (the file that
    declares [formatPath], [countFileTypes], [formatSize],
    [calculateDirSize], [SelectedItemProvider] and [activate]) together
    with the properties its specification states about it.

    Modelling conventions.
    - JavaScript strings are [string]s: a sequence of code units.
      [String.length] is the [.length] of the source.
    - [toLowerCase], [toLocaleString] and [Uri.file] belong to the runtime
      and the editor: they are fields of [Host].  Of [toLowerCase] the
      development uses two facts only: it maps the empty string to the
      empty string and keeps a leading dot.
    - Byte counts, counters and directory sizes are JavaScript numbers that
      hold non-negative integers; they are modelled in [N].  Division by
      1024, 1024^2 and 1024^3 is exact on such numbers, so [toFixed(1)]
      is computed on the exact quotient.
    - An exception is a value: a call that can throw returns a
      [Completion].  Statements run in [Eff.t], which threads the mutable
      local of the enclosing function; [try]/[catch] is [Eff.tryCatch].
    - The file system is a snapshot: one answer per path for [statSync],
      [readdirSync] and [existsSync].
    - [path] is Node's POSIX flavour. *)

From Stdlib Require Import List String Ascii Bool Arith NArith ZArith Lia.
From Stdlib Require Import DecimalString Permutation Sorted.
Import ListNotations.

Local Open Scope string_scope.
Local Open Scope list_scope.

Set Implicit Arguments.

(* ================================================================== *)
(** ** JavaScript values the module relies on *)

Module Js.

(** What a thrown value carries; the module never inspects it. *)
Inductive Error : Type :=
| ENOENT
| EACCES
| ENOTDIR
| OtherError (message : string).

(** The outcome of evaluating an expression that may throw. *)
Inductive Completion (A : Type) : Type :=
| Normal (value : A)
| Throw (error : Error).

Arguments Normal {A} value.
Arguments Throw {A} error.

(** Truthiness of a string: every string but the empty one. *)
Definition truthy (s : string) : bool :=
  match s with
  | EmptyString => false
  | String _ _ => true
  end.

(** Truthiness of an optional string ([undefined] is falsy). *)
Definition truthyOpt (o : option string) : bool :=
  match o with
  | Some s => truthy s
  | None => false
  end.

(** [String(n)] for a non-negative integer [n]. *)
Definition numberToString (n : N) : string :=
  NilZero.string_of_uint (N.to_uint n).

(** The character of a digit below 10 (and below 8 when used in octal). *)
Definition digitChar (d : N) : ascii :=
  ascii_of_N (48 + d).

Fixpoint octalDigits (fuel : nat) (n : N) (acc : string) : string :=
  match fuel with
  | O => acc
  | S fuel' =>
      let acc' := String (digitChar (n mod 8)) acc in
      if (n / 8 =? 0)%N then acc' else octalDigits fuel' (n / 8) acc'
  end.

(** [n.toString(8)] for a non-negative integer [n]. *)
Definition toOctalString (n : N) : string :=
  octalDigits (S (N.to_nat (N.log2 n))) n "".

(** [s.substring(start, end)] with [start <= end]; both indices are
    clamped to the length of [s], as [String.substring] does. *)
Definition substring (s : string) (start stop : nat) : string :=
  String.substring start (stop - start) s.

(** [s.substring(start)] *)
Definition substringFrom (s : string) (start : nat) : string :=
  String.substring start (String.length s - start) s.

(** [s.startsWith(p)] *)
Definition startsWith (s p : string) : bool := String.prefix p s.

(** [s.includes(p)] *)
Fixpoint includes (s p : string) : bool :=
  String.prefix p s ||
  match s with
  | EmptyString => false
  | String _ s' => includes s' p
  end.

(** [x.toFixed(1)] for the exact non-negative quotient [x = num / den]:
    the integer [n] for which [n / 10 - x] is as close to zero as
    possible, the larger one when there are two, printed with its last
    digit after the point.  (This is [toFixed] below 10^21, far above any
    size in units of 1024^k bytes that a file system reports.) *)
Definition nearestTenth (num den : N) : N :=
  ((20 * num + den) / (2 * den))%N.

Definition toFixed1 (num den : N) : string :=
  let n := nearestTenth num den in
  numberToString (n / 10) ++ String "." (String (digitChar (n mod 10)) "").

(** [parts.join(sep)] *)
Definition join (sep : string) (parts : list string) : string :=
  String.concat sep parts.

End Js.

Import Js.

(* ================================================================== *)
(** ** Statements: mutable locals and exceptions

    A block of statements that mutates a local of type [S] and may throw
    is a function from the local's value to a completion and the local's
    new value.  What was written before a throw stays written. *)

Module Eff.

Definition t (S A : Type) : Type := S -> Completion A * S.

Definition ret {S A} (a : A) : t S A := fun s => (Normal a, s).

Definition bind {S A B} (c : t S A) (k : A -> t S B) : t S B :=
  fun s =>
    match c s with
    | (Normal a, s') => k a s'
    | (Throw e, s') => (Throw e, s')
    end.

(** A call into the host that may throw and leaves the local alone. *)
Definition call {S A} (c : Completion A) : t S A := fun s => (c, s).

Definition modify {S} (f : S -> S) : t S unit := fun s => (Normal tt, f s).

Definition get {S} : t S S := fun s => (Normal s, s).

(** [try { body } catch (e) { handler }] *)
Definition tryCatch {S A} (body : t S A) (handler : Error -> t S A)
  : t S A :=
  fun s =>
    match body s with
    | (Normal a, s') => (Normal a, s')
    | (Throw e, s') => handler e s'
    end.

(** [for (const x of l) { body }] *)
Fixpoint forOf {S A} (l : list A) (body : A -> t S unit) : t S unit :=
  match l with
  | [] => ret tt
  | x :: l' => bind (body x) (fun _ => forOf l' body)
  end.

(** [if (c) { body }] *)
Definition when {S} (c : bool) (body : t S unit) : t S unit :=
  if c then body else ret tt.

End Eff.

Declare Scope eff_scope.
Delimit Scope eff_scope with eff.
Notation "x <- c1 ;; c2" := (Eff.bind c1 (fun x => c2))
  (at level 61, c1 at next level, right associativity) : eff_scope.
Notation "c1 ;; c2" := (Eff.bind c1 (fun _ => c2))
  (at level 61, right associativity) : eff_scope.

(* ================================================================== *)
(** ** Node's [path] module (POSIX), as far as the module calls it *)

Module Path.

Definition slash : ascii := "/"%char.
Definition dot : ascii := "."%char.

Definition isSlash (c : ascii) : bool := Ascii.eqb c slash.
Definition notSlash (c : ascii) : bool := negb (isSlash c).
Definition notDot (c : ascii) : bool := negb (Ascii.eqb c dot).

Fixpoint takeWhile (p : ascii -> bool) (l : list ascii) : list ascii :=
  match l with
  | [] => []
  | c :: l' => if p c then c :: takeWhile p l' else []
  end.

Fixpoint dropWhile (p : ascii -> bool) (l : list ascii) : list ascii :=
  match l with
  | [] => []
  | c :: l' => if p c then dropWhile p l' else l
  end.

(** The last portion of a path, read backwards: trailing separators are
    skipped, then everything up to the next separator is taken. *)
Definition lastPortionRev (p : string) : list ascii :=
  takeWhile notSlash (dropWhile isSlash (rev (list_ascii_of_string p))).

(** [path.basename(p)] *)
Definition basename (p : string) : string :=
  string_of_list_ascii (rev (lastPortionRev p)).

(** [path.extname(p)]: from the last dot of the last portion to its end;
    empty when there is no dot, when the only dot opens the portion, or
    when the portion is [".."]. *)
Definition extname (p : string) : string :=
  let portion := lastPortionRev p in
  let afterDot := takeWhile notDot portion in
  match dropWhile notDot portion with
  | [] => ""
  | _ :: [] => ""
  | _ :: before =>
      match afterDot, before with
      | [], [c] => if Ascii.eqb c dot then ""
                   else String dot (string_of_list_ascii (rev afterDot))
      | _, _ => String dot (string_of_list_ascii (rev afterDot))
      end
  end.

(** [path.dirname(p)] *)
Definition dirname (p : string) : string :=
  match p with
  | EmptyString => "."
  | String c0 rest =>
      let hasRoot := isSlash c0 in
      let scanned :=
        dropWhile notSlash
          (dropWhile isSlash (rev (list_ascii_of_string rest))) in
      match scanned with
      | [] => if hasRoot then "/" else "."
      | _ :: kept =>
          match kept with
          | [] => if hasRoot then "//" else String c0 ""
          | _ => String c0 (string_of_list_ascii (rev kept))
          end
      end
  end.

(** The segments between separators, in order. *)
Fixpoint segmentsFrom (current : list ascii) (l : list ascii)
  : list string :=
  match l with
  | [] => [string_of_list_ascii (rev current)]
  | c :: l' =>
      if isSlash c
      then string_of_list_ascii (rev current) :: segmentsFrom [] l'
      else segmentsFrom (c :: current) l'
  end.

Definition segments (p : string) : list string :=
  segmentsFrom [] (list_ascii_of_string p).

(** One step of [normalizeString]; [kept] holds the segments retained so
    far, last one first. *)
Definition normalizeStep (allowAboveRoot : bool) (kept : list string)
    (segment : string) : list string :=
  if String.eqb segment "" || String.eqb segment "." then kept
  else if String.eqb segment ".." then
    match kept with
    | [] => if allowAboveRoot then [".."] else []
    | top :: below =>
        if String.eqb top ".."
        then (if allowAboveRoot then ".." :: kept else kept)
        else below
    end
  else segment :: kept.

Definition normalizeString (p : string) (allowAboveRoot : bool) : string :=
  String.concat "/"
    (rev (fold_left (normalizeStep allowAboveRoot) (segments p) [])).

Definition lastIsSlash (p : string) : bool :=
  match rev (list_ascii_of_string p) with
  | c :: _ => isSlash c
  | [] => false
  end.

(** [path.normalize(p)] *)
Definition normalize (p : string) : string :=
  match p with
  | EmptyString => "."
  | String c0 _ =>
      let isAbsolute := isSlash c0 in
      let trailingSeparator := lastIsSlash p in
      let body := normalizeString p (negb isAbsolute) in
      if String.eqb body "" then
        if isAbsolute then "/"
        else if trailingSeparator then "./" else "."
      else
        let body' := if trailingSeparator then (body ++ "/")%string else body in
        if isAbsolute then String slash body' else body'
  end.

(** [path.join(a, b)] *)
Definition join (a b : string) : string :=
  match truthy a, truthy b with
  | true, true => normalize (a ++ "/" ++ b)%string
  | true, false => normalize a
  | false, true => normalize b
  | false, false => "."
  end.

End Path.

(* ================================================================== *)
(** ** The host: file system, URIs, dates *)

(** What [fs.statSync] returns, restricted to the fields the module reads.
    Dates are milliseconds since the epoch. *)
Record Stats : Type := mkStats {
  isDirectory : bool;
  size : N;
  mode : N;
  birthtime : Z;
  mtime : Z
}.

(** A snapshot of the file system. *)
Record FileSystem : Type := mkFileSystem {
  statSync : string -> Completion Stats;
  readdirSync : string -> Completion (list string);
  existsSync : string -> bool
}.

(** [vscode.Uri], restricted to what the module reads. *)
Record Uri : Type := mkUri {
  fsPath : string
}.

(** The parts of the editor and of the runtime that the module calls and
    that have no definition in the repository. *)
Record Host : Type := mkHost {
  (** [date.toLocaleString()] *)
  toLocaleString : Z -> string;
  (** [vscode.Uri.file(text)] *)
  UriFile : string -> Completion Uri;
  (** [s.toLowerCase()], with the case tables of the runtime *)
  toLowerCase : string -> string;
  (** lower-casing the empty string gives the empty string *)
  toLowerCase_empty : toLowerCase "" = "";
  (** lower-casing keeps a leading dot *)
  toLowerCase_dot :
    forall rest, exists rest', toLowerCase (String "." rest) = String "." rest'
}.

(* ================================================================== *)
(** ** The provider module *)

(** [vscode.TreeItemCollapsibleState] *)
Inductive TreeItemCollapsibleState : Type :=
| CollapsibleNone
| Collapsed
| Expanded.

(** [class DirectoryItem extends vscode.TreeItem] *)
Record DirectoryItem : Type := mkDirectoryItem {
  label : string;
  collapsibleState : TreeItemCollapsibleState;
  fullPath : option string;
  contextValue : option string;
  tooltip : option string;
  description : option string
}.

Definition maxLength : nat := 40.

(** [function formatPath(filePath)] *)
Definition formatPath (filePath : string) : string :=
  if Nat.leb (String.length filePath) maxLength then filePath
  else
    let start := substring filePath 0 (maxLength / 2 - 3) in
    let stop :=
      substringFrom filePath (String.length filePath - (maxLength / 2 - 3)) in
    (start ++ "..." ++ stop)%string.

(** [new DirectoryItem(label, collapsibleState, fullPath, contextValue)] *)
Definition newDirectoryItem (label : string)
    (collapsibleState : TreeItemCollapsibleState)
    (fullPath contextValue : option string) : DirectoryItem :=
  {| label := label;
     collapsibleState := collapsibleState;
     fullPath := fullPath;
     contextValue := contextValue;
     tooltip := if truthyOpt fullPath then fullPath else None;
     description :=
       match fullPath with
       | Some p =>
           if truthy p then
             let dirName := Path.dirname p in
             if negb (String.eqb dirName ".") then Some (formatPath dirName)
             else None
           else None
       | None => None
       end |}.

(** A row built with a label only. *)
Definition infoItem (label : string) : DirectoryItem :=
  newDirectoryItem label CollapsibleNone None None.

(** The object [countFileTypes] fills: its own properties in insertion
    order.  No key is an array index (the sentinels are words and every
    other key opens with a dot), so [Object.entries] lists the properties
    in this order. *)
Definition Counts : Type := list (string * N).

Module Counts.

(** [counts[key]]; [None] is [undefined]. *)
Fixpoint get (key : string) (counts : Counts) : option N :=
  match counts with
  | [] => None
  | (k, v) :: rest => if String.eqb k key then Some v else get key rest
  end.

(** [counts[key] = value]: an existing property keeps its place, a new
    one goes last. *)
Fixpoint set (key : string) (value : N) (counts : Counts) : Counts :=
  match counts with
  | [] => [(key, value)]
  | (k, v) :: rest =>
      if String.eqb k key then (k, value) :: rest
      else (k, v) :: set key value rest
  end.

(** [counts[key] || 0] *)
Definition getOrZero (key : string) (counts : Counts) : N :=
  match get key counts with
  | Some v => v
  | None => 0
  end.

(** [counts[key] = (counts[key] || 0) + 1]; also [counts.key++] for a
    key that is present. *)
Definition increment (key : string) (counts : Counts) : Counts :=
  set key (getOrZero key counts + 1)%N counts.

(** [counts.key > 0]; [undefined > 0] is false. *)
Definition positive (key : string) (counts : Counts) : bool :=
  match get key counts with
  | Some v => (0 <? v)%N
  | None => false
  end.

End Counts.

Section Provider.

Variable host : Host.
Variable fs : FileSystem.

Local Open Scope eff_scope.

(** The body of the loop of [countFileTypes]. *)
Definition countEntry (directoryPath file : string) : Eff.t Counts unit :=
  Eff.tryCatch
    (let filePath := Path.join directoryPath file in
     stats <- Eff.call (statSync fs filePath) ;;
     if isDirectory stats then
       Eff.modify (Counts.increment "directories")
     else
       Eff.modify (Counts.increment "files") ;;
       let ext := toLowerCase host (Path.extname file) in
       if truthy ext then Eff.modify (Counts.increment ext)
       else Eff.modify (Counts.increment "no-extension"))
    (fun _ => Eff.ret tt).

(** [function countFileTypes(directoryPath)]: a throw anywhere in the
    [try] block makes the function return [{ error: 1 }]. *)
Definition countFileTypes (directoryPath : string) : Completion Counts :=
  match readdirSync fs directoryPath with
  | Normal files =>
      match Eff.forOf files (countEntry directoryPath)
              [("directories", 0%N); ("files", 0%N)] with
      | (Normal _, counts) => Normal counts
      | (Throw _, _) => Normal [("error", 1%N)]
      end
  | Throw _ => Normal [("error", 1%N)]
  end.

(** [function formatSize(bytes)] *)
Definition formatSize (bytes : N) : string :=
  if (bytes <? 1024)%N then
    (numberToString bytes ++ " bytes")%string
  else if (bytes <? 1024 * 1024)%N then
    (toFixed1 bytes 1024 ++ " KB")%string
  else if (bytes <? 1024 * 1024 * 1024)%N then
    (toFixed1 bytes (1024 * 1024) ++ " MB")%string
  else
    (toFixed1 bytes (1024 * 1024 * 1024) ++ " GB")%string.

(** The body of the loop of [calculateDirSize]. *)
Definition addEntrySize (dirPath file : string) : Eff.t N unit :=
  Eff.tryCatch
    (let filePath := Path.join dirPath file in
     stats <- Eff.call (statSync fs filePath) ;;
     if isDirectory stats then
       Eff.modify (fun totalSize => totalSize + size stats)%N
     else
       Eff.modify (fun totalSize => totalSize + size stats)%N)
    (fun _ => Eff.ret tt).

(** [function calculateDirSize(dirPath)] *)
Definition calculateDirSize (dirPath : string) : Completion N :=
  let body :=
    Eff.tryCatch
      (files <- Eff.call (readdirSync fs dirPath) ;;
       Eff.forOf files (addEntrySize dirPath))
      (fun _ => Eff.ret tt) ;;
    Eff.get in
  fst (body 0%N).

End Provider.

(** [array.sort(compare)]: the sort is stable, and [compare x y <= 0]
    keeps [x] before [y]. *)
Section ArraySort.

Variable A : Type.
Variable compare : A -> A -> Z.

Fixpoint sortInsert (x : A) (sorted : list A) : list A :=
  match sorted with
  | [] => [x]
  | y :: rest =>
      if (compare x y <=? 0)%Z then x :: y :: rest
      else y :: sortInsert x rest
  end.

Fixpoint sort (l : list A) : list A :=
  match l with
  | [] => []
  | x :: rest => sortInsert x (sort rest)
  end.

End ArraySort.

(** [['directories', 'files', 'no-extension', 'error'].includes(key)] *)
Definition isSentinel (key : string) : bool :=
  existsb (String.eqb key) ["directories"; "files"; "no-extension"; "error"].

(** [(a, b) => b[1] - a[1]] *)
Definition byCountDescending (a b : string * N) : Z :=
  (Z.of_N (snd b) - Z.of_N (snd a))%Z.

(** The entries kept for the "Common types" row:
    [Object.entries(counts).filter(...).sort(...).slice(0, 3)]. *)
Definition topExtensions (counts : Counts) : Counts :=
  firstn 3
    (sort byCountDescending
       (filter (fun entry => negb (isSentinel (fst entry))) counts)).

(** [([ext, count]) => `${ext.substring(1)}: ${count}`] *)
Definition formatExtension (entry : string * N) : string :=
  (substringFrom (fst entry) 1 ++ ": " ++ numberToString (snd entry))%string.

(** [extensions.map(...).join(', ')] *)
Definition extensionSummary (extensions : Counts) : string :=
  Js.join ", " (map formatExtension extensions).

(** [class SelectedItemProvider]: its two fields, and the number of times
    [_onDidChangeTreeData] has fired. *)
Record SelectedItemProvider : Type := mkProvider {
  workspaceRoot : option string;
  currentSelection : option Uri;
  changesFired : nat
}.

(** [new SelectedItemProvider(workspaceRoot)] *)
Definition newSelectedItemProvider (workspaceRoot : option string)
  : SelectedItemProvider :=
  {| workspaceRoot := workspaceRoot;
     currentSelection := None;
     changesFired := 0 |}.

(** [refresh(selection?)] *)
Definition refresh (selection : option Uri) (this : SelectedItemProvider)
  : SelectedItemProvider :=
  {| workspaceRoot := workspaceRoot this;
     currentSelection := selection;
     changesFired := S (changesFired this) |}.

Section Rows.

Variable host : Host.
Variable fs : FileSystem.

Local Open Scope eff_scope.

(** [items.push(item)] *)
Definition push (item : DirectoryItem) : Eff.t (list DirectoryItem) unit :=
  Eff.modify (fun items => items ++ [item]).

(** The rows that follow "Contains"/"Root contains": the two counters. *)
Definition pushCounters (counts : Counts) : Eff.t (list DirectoryItem) unit :=
  Eff.when (Counts.positive "directories" counts)
    (push (infoItem
       ("Subdirectories: " ++
        numberToString (Counts.getOrZero "directories" counts)))) ;;
  Eff.when (Counts.positive "files" counts)
    (push (infoItem
       ("Files: " ++ numberToString (Counts.getOrZero "files" counts)))).

(** The branch of [getChildren] taken when a selection is held. *)
Definition selectionRows (selection : Uri)
  : Eff.t (list DirectoryItem) unit :=
  Eff.tryCatch
    (stats <- Eff.call (statSync fs (fsPath selection)) ;;
     let itemName := Path.basename (fsPath selection) in
     let itemType := if isDirectory stats then "Directory" else "File" in
     let contextValue := if isDirectory stats then "directory" else "file" in
     push (newDirectoryItem (itemType ++ ": " ++ itemName) CollapsibleNone
             (Some (fsPath selection)) (Some contextValue)) ;;
     let createdDate := toLocaleString host (birthtime stats) in
     push (infoItem ("Created: " ++ createdDate)) ;;
     let modifiedDate := toLocaleString host (mtime stats) in
     push (infoItem ("Modified: " ++ modifiedDate)) ;;
     let permissions := toOctalString (N.land (mode stats) 511) in
     push (infoItem ("Permissions: " ++ permissions)) ;;
     if negb (isDirectory stats) then
       push (infoItem ("Size: " ++ formatSize (size stats))) ;;
       let extension := Path.extname itemName in
       Eff.when (truthy extension)
         (push (infoItem ("Type: " ++ substringFrom extension 1)))
     else
       dirSize <- Eff.call (calculateDirSize fs (fsPath selection)) ;;
       push (infoItem ("Size (approx): " ++ formatSize dirSize)) ;;
       Eff.tryCatch
         (files <- Eff.call (readdirSync fs (fsPath selection)) ;;
          push (infoItem
            ("Contains: " ++ numberToString (N.of_nat (List.length files)) ++
             " items")) ;;
          counts <- Eff.call (countFileTypes host fs (fsPath selection)) ;;
          pushCounters counts ;;
          let extensions := topExtensions counts in
          Eff.when (Nat.ltb 0 (List.length extensions))
            (push (infoItem
               ("Common types: " ++ extensionSummary extensions))))
         (fun _ => push (infoItem "Error reading directory contents")))
    (fun _ => push (infoItem "Error reading file information")).

(** The branch of [getChildren] taken when no selection is held and a
    workspace folder is open. *)
Definition workspaceRows (root : string) : Eff.t (list DirectoryItem) unit :=
  let folderName := Path.basename root in
  push (newDirectoryItem ("Workspace: " ++ folderName) CollapsibleNone
          (Some root) (Some "directory")) ;;
  Eff.tryCatch
    (files <- Eff.call (readdirSync fs root) ;;
     push (infoItem
       ("Root contains: " ++ numberToString (N.of_nat (List.length files)) ++
        " items")) ;;
     counts <- Eff.call (countFileTypes host fs root) ;;
     pushCounters counts)
    (fun _ => Eff.ret tt).

(** [getChildren(element?)]; the promise it returns is resolved, so the
    completion holds the rows. *)
Definition getChildren (this : SelectedItemProvider)
    (element : option DirectoryItem) : Completion (list DirectoryItem) :=
  match element with
  | Some _ => Normal []
  | None =>
      let body :=
        match currentSelection this with
        | Some selection => selectionRows selection
        | None =>
            if truthyOpt (workspaceRoot this) then
              match workspaceRoot this with
              | Some root => workspaceRows root
              | None => Eff.ret tt
              end
            else push (infoItem "No workspace or selection")
        end ;;
        Eff.get in
      fst (body [])
  end.

(** The callback that receives the clipboard text in [activate]. *)
Definition onClipboardText (text : string)
  : Eff.t SelectedItemProvider unit :=
  Eff.when (truthy text && (startsWith text "/" || includes text ":/"))
    (Eff.tryCatch
       (uri <- Eff.call (UriFile host text) ;;
        Eff.when (existsSync fs (fsPath uri))
          (Eff.modify (refresh (Some uri))))
       (fun _ => Eff.ret tt)).

(** The listener registered with [onDidChangeWindowState]:
    [copyFilePath] is the outcome of the command of that name, [text]
    what the clipboard holds afterwards. *)
Definition onDidChangeWindowState (copyFilePath : Completion unit)
    (text : string) : Eff.t SelectedItemProvider unit :=
  match copyFilePath with
  | Normal _ => onClipboardText text
  | Throw _ => Eff.ret tt
  end.

End Rows.

(* ================================================================== *)
(** ** Vocabulary of the specification *)

(** The two states of the tracker. *)
Inductive SelectionState : Type :=
| NoSelection
| HasSelection (path : Uri).

Definition selectionState (this : SelectedItemProvider) : SelectionState :=
  match currentSelection this with
  | Some selection => HasSelection selection
  | None => NoSelection
  end.

(** [n] is the number of tenths nearest to [num / den], the larger one on
    a tie: [n - 1/2 <= 10 * num / den < n + 1/2]. *)
Definition NearestTenth (n num den : N) : Prop :=
  (2 * den * n <= 20 * num + den /\ 20 * num + den < 2 * den * (n + 1))%N.

(** A number printed with exactly one digit after the point. *)
Definition oneDecimal (n : N) : string :=
  (numberToString (n / 10) ++ "." ++ String (digitChar (n mod 10)) "")%string.

(** What the loops see of one immediate child of a directory. *)
Inductive ChildKind : Type :=
| ChildDirectory
| ChildFile (extension : string)
| ChildUnreadable.

Definition classify (host : Host) (fs : FileSystem)
    (directoryPath file : string)
  : ChildKind :=
  match statSync fs (Path.join directoryPath file) with
  | Normal stats =>
      if isDirectory stats then ChildDirectory
      else ChildFile (toLowerCase host (Path.extname file))
  | Throw _ => ChildUnreadable
  end.

Definition isChildDirectory (k : ChildKind) : bool :=
  match k with ChildDirectory => true | _ => false end.

Definition isChildFile (k : ChildKind) : bool :=
  match k with ChildFile _ => true | _ => false end.

(** The bucket a file with lower-cased extension [extension] goes to. *)
Definition bucketOf (extension : string) : string :=
  if truthy extension then extension else "no-extension".

Definition isFileInBucket (bucket : string) (k : ChildKind) : bool :=
  match k with
  | ChildFile extension => String.eqb (bucketOf extension) bucket
  | _ => false
  end.

(** How many of the children [files] of [directoryPath] satisfy [p]. *)
Definition countChildren (host : Host) (fs : FileSystem)
    (directoryPath : string)
    (p : ChildKind -> bool) (files : list string) : N :=
  N.of_nat (List.length (filter (fun file => p (classify host fs directoryPath file)) files)).

(** The size a child adds to the approximate size of its directory. *)
Definition childSize (fs : FileSystem) (dirPath file : string) : N :=
  match statSync fs (Path.join dirPath file) with
  | Normal stats => size stats
  | Throw _ => 0%N
  end.

Definition sumN (l : list N) : N := fold_right N.add 0%N l.

(** The non-empty lower-cased extensions of the files among the children,
    one per file, in listing order. *)
Definition extensionsSeen (host : Host) (fs : FileSystem)
    (directoryPath : string)
    (files : list string) : list string :=
  flat_map
    (fun file =>
       match classify host fs directoryPath file with
       | ChildFile extension => if truthy extension then [extension] else []
       | _ => []
       end)
    files.

Definition mem (key : string) (keys : list string) : bool :=
  existsb (String.eqb key) keys.

(** One more key is seen: it is new or it is not. *)
Definition seeKey (seen : list string) (key : string) : list string :=
  if mem key seen then seen else seen ++ [key].

(** The distinct elements of a list in the order of their first
    occurrence. *)
Definition firstSeen (keys : list string) : list string :=
  fold_left seeKey keys [].

Definition occurrences (key : string) (keys : list string) : N :=
  N.of_nat (List.length (filter (String.eqb key) keys)).

(** Each distinct key with the number of times it occurs, in first-seen
    order. *)
Definition tally (keys : list string) : Counts :=
  map (fun key => (key, occurrences key keys)) (firstSeen keys).

Definition hasCount (n : N) (entry : string * N) : bool :=
  (snd entry =? n)%N.

(** The rows every successfully stat-ed selection opens with. *)
Definition statRows (host : Host) (selection : Uri) (stats : Stats)
  : list DirectoryItem :=
  [ newDirectoryItem
      ((if isDirectory stats then "Directory" else "File") ++ ": " ++
       Path.basename (fsPath selection))
      CollapsibleNone (Some (fsPath selection))
      (Some (if isDirectory stats then "directory" else "file"));
    infoItem ("Created: " ++ toLocaleString host (birthtime stats));
    infoItem ("Modified: " ++ toLocaleString host (mtime stats));
    infoItem ("Permissions: " ++ toOctalString (N.land (mode stats) 511)) ].

(** The identity row of the workspace root. *)
Definition workspaceItem (root : string) : DirectoryItem :=
  newDirectoryItem ("Workspace: " ++ Path.basename root) CollapsibleNone
    (Some root) (Some "directory").

(** The "Common types" row, present when at least one extension is
    listed. *)
Definition commonTypesRows (top : Counts) : list DirectoryItem :=
  match top with
  | [] => []
  | _ :: _ =>
      [infoItem ("Common types: " ++ Js.join ", " (map formatExtension top))]
  end.

(** The descending order of counts. *)
Definition countAtLeast (a b : string * N) : Prop := (snd b <= snd a)%N.

(** [ranked] lists the entries of [entries] by descending count, entries
    of equal count in the order they have in [entries]. *)
Definition RankedByCount (ranked entries : Counts) : Prop :=
  Permutation ranked entries /\
  StronglySorted countAtLeast ranked /\
  (forall n, filter (hasCount n) ranked = filter (hasCount n) entries).

(** The rows for the two counters, each shown only when positive. *)
Definition counterRows (directories files : N) : list DirectoryItem :=
  (if (0 <? directories)%N
   then [infoItem ("Subdirectories: " ++ numberToString directories)]
   else []) ++
  (if (0 <? files)%N
   then [infoItem ("Files: " ++ numberToString files)]
   else []).

(** The properties one child makes the counting loop increment, in
    order. *)
Definition keysOf (k : ChildKind) : list string :=
  match k with
  | ChildDirectory => ["directories"]
  | ChildFile extension => ["files"; bucketOf extension]
  | ChildUnreadable => []
  end.

(** The increments of a whole listing, in order. *)
Definition incrementsOf (host : Host) (fs : FileSystem) (directoryPath : string)
    (files : list string) : list string :=
  flat_map (fun file => keysOf (classify host fs directoryPath file)) files.

Definition incrementAll (keys : list string) (counts : Counts) : Counts :=
  fold_left (fun c key => Counts.increment key c) keys counts.

Definition keepExtension (entry : string * N) : bool :=
  negb (isSentinel (fst entry)).

Definition isChildReadable (k : ChildKind) : bool :=
  match k with ChildUnreadable => false | _ => true end.

(** What the listener leaves of the tracker. *)
Definition afterWindowState (host : Host) (fs : FileSystem)
    (copyFilePath : Completion unit) (text : string)
    (this : SelectedItemProvider) : SelectedItemProvider :=
  snd (onDidChangeWindowState host fs copyFilePath text this).

(** The labels of a row list. *)
Definition labelsOf (rows : Completion (list DirectoryItem))
  : option (list string) :=
  match rows with
  | Normal items => Some (map label items)
  | Throw _ => None
  end.

(* ================================================================== *)
(** ** Sample inputs *)

Module Sample.

Definition stats (directory : bool) (bytes : N) : Stats :=
  {| isDirectory := directory; size := bytes; mode := 33188;
     birthtime := 0; mtime := 0 |}.

(** One directory, [/w/d], holding [a.txt], [b.txt], [c.md] and the
    directory [sub]; nothing else exists. *)
Definition statOf (p : string) : Completion Stats :=
  if String.eqb p "/w/d" then Normal (stats true 4096)
  else if String.eqb p "/w/d/a.txt" then Normal (stats false 10)
  else if String.eqb p "/w/d/b.txt" then Normal (stats false 20)
  else if String.eqb p "/w/d/c.md" then Normal (stats false 30)
  else if String.eqb p "/w/d/sub" then Normal (stats true 4096)
  else Throw ENOENT.

Definition listingOf (p : string) : Completion (list string) :=
  if String.eqb p "/w/d" then Normal ["a.txt"; "b.txt"; "c.md"; "sub"]
  else Throw ENOENT.

Definition disk : FileSystem :=
  {| statSync := statOf;
     readdirSync := listingOf;
     existsSync := fun p =>
       match statOf p with Normal _ => true | Throw _ => false end |}.

(** A directory, [/locked], whose entry can be stat-ed and whose listing
    cannot be read; [/gone] does not exist. *)
Definition lockedDisk : FileSystem :=
  {| statSync := fun p =>
       if String.eqb p "/locked" then Normal (stats true 4096)
       else Throw ENOENT;
     readdirSync := fun p =>
       if String.eqb p "/locked" then Throw EACCES else Throw ENOENT;
     existsSync := fun p => String.eqb p "/locked" |}.

(** A directory, [/t], with ties among its extensions, an upper-case
    extension, names without extension and one child, [ghost], that
    cannot be stat-ed. *)
Definition mixedListing : list string :=
  ["z.md"; "a.txt"; "ghost"; "b.txt"; "c.js"; "d.rs"; "e.JS"; "Makefile";
   ".bashrc"].

Definition mixedDisk : FileSystem :=
  {| statSync := fun p =>
       if String.eqb p "/t" then Normal (stats true 4096)
       else if String.eqb p "/t/ghost" then Throw EACCES
       else if Js.startsWith p "/t/" then Normal (stats false 100)
       else Throw ENOENT;
     readdirSync := fun p =>
       if String.eqb p "/t" then Normal mixedListing else Throw ENOENT;
     existsSync := fun p => Js.startsWith p "/t" |}.

(** Lower-casing of the names the samples hold, which are written in
    ASCII: [A] to [Z] go to [a] to [z], every other code unit stays. *)
Definition lowerChar (c : ascii) : ascii :=
  let n := N_of_ascii c in
  if ((65 <=? n) && (n <=? 90))%N then ascii_of_N (n + 32) else c.

Fixpoint lowerCaseAscii (s : string) : string :=
  match s with
  | EmptyString => EmptyString
  | String c s' => String (lowerChar c) (lowerCaseAscii s')
  end.

Definition host : Host :=
  {| toLocaleString := fun _ => "1/1/1970, 12:00:00 AM";
     UriFile := fun text => Normal (mkUri text);
     toLowerCase := lowerCaseAscii;
     toLowerCase_empty := eq_refl;
     toLowerCase_dot :=
       fun rest => ex_intro _ (lowerCaseAscii rest) eq_refl |}.

Definition selecting (p : string) : SelectedItemProvider :=
  refresh (Some (mkUri p)) (newSelectedItemProvider None).

Definition longPath : string :=
  "/home/user/projects/codelens/src/test/fixtures".

End Sample.

(* ================================================================== *)
(** ** Activation and the listeners it registers *)

(** [getTreeItem(element)] *)
Definition getTreeItem (element : DirectoryItem) : DirectoryItem := element.

(** What [activate] reads from the editor: the workspace folders, each by
    its [uri], and the active text editor, by its [document.uri]. *)
Record Workbench : Type := mkWorkbench {
  workspaceFolders : option (list Uri);
  activeTextEditor : option Uri
}.

(** [folders && folders.length > 0 ? folders[0].uri.fsPath : undefined] *)
Definition firstFolderPath (folders : option (list Uri)) : option string :=
  match folders with
  | Some present =>
      if Nat.ltb 0 (List.length present)
      then option_map fsPath (nth_error present 0)
      else None
  | None => None
  end.

(** The listener registered with [onDidChangeActiveTextEditor]. *)
Definition onDidChangeActiveTextEditor (editor : option Uri)
  : Eff.t SelectedItemProvider unit :=
  match editor with
  | Some uri => Eff.modify (refresh (Some uri))
  | None => Eff.ret tt
  end.

(** The command [codelens.selectPath], after the dialog has answered with
    [fileUri]: [if (fileUri && fileUri[0]) refresh(fileUri[0])]. *)
Definition selectPath (fileUri : option (list Uri))
  : Eff.t SelectedItemProvider unit :=
  match fileUri with
  | Some picked =>
      match nth_error picked 0 with
      | Some uri => Eff.modify (refresh (Some uri))
      | None => Eff.ret tt
      end
  | None => Eff.ret tt
  end.

(** [activate(context)]: the provider as it stands when [activate]
    returns. *)
Definition activate (workbench : Workbench) : SelectedItemProvider :=
  let workspaceRoot := firstFolderPath (workspaceFolders workbench) in
  let selectedItemProvider := newSelectedItemProvider workspaceRoot in
  match activeTextEditor workbench with
  | Some uri => refresh (Some uri) selectedItemProvider
  | None => selectedItemProvider
  end.

(** What the editor can deliver to the registered listeners and commands.
    [HelloWorld] shows a message in the window and leaves the provider
    alone. *)
Inductive Event : Type :=
| ActiveTextEditorChanged (editor : option Uri)
| WindowStateChanged (copyFilePath : Completion unit) (clipboard : string)
| SelectPathAnswered (fileUri : option (list Uri))
| HelloWorld.

Definition dispatch (host : Host) (fs : FileSystem) (event : Event)
  : Eff.t SelectedItemProvider unit :=
  match event with
  | ActiveTextEditorChanged editor => onDidChangeActiveTextEditor editor
  | WindowStateChanged copyFilePath clipboard =>
      onDidChangeWindowState host fs copyFilePath clipboard
  | SelectPathAnswered fileUri => selectPath fileUri
  | HelloWorld => Eff.ret tt
  end.

(** The listeners run one after the other, each to completion. *)
Definition dispatchAll (host : Host) (fs : FileSystem) (events : list Event)
  : Eff.t SelectedItemProvider unit :=
  Eff.forOf events (dispatch host fs).

(* ================================================================== *)
(** ** The row list as a function of the snapshot *)

(** The rows of a selected regular file. *)
Definition fileRows (host : Host) (selection : Uri) (stats : Stats)
  : list DirectoryItem :=
  statRows host selection stats ++
  [infoItem ("Size: " ++ formatSize (size stats))] ++
  (let extension := Path.extname (Path.basename (fsPath selection)) in
   if truthy extension
   then [infoItem ("Type: " ++ substringFrom extension 1)]
   else []).

(** The rows of a selected directory. *)
Definition directoryRows (host : Host) (fs : FileSystem) (selection : Uri)
    (stats : Stats) : list DirectoryItem :=
  statRows host selection stats ++
  match readdirSync fs (fsPath selection) with
  | Normal files =>
      [infoItem
         ("Size (approx): " ++
          formatSize (sumN (map (childSize fs (fsPath selection)) files)));
       infoItem
         ("Contains: " ++ numberToString (N.of_nat (List.length files)) ++
          " items")] ++
      counterRows
        (countChildren host fs (fsPath selection) isChildDirectory files)
        (countChildren host fs (fsPath selection) isChildFile files) ++
      commonTypesRows
        (firstn 3
           (sort byCountDescending
              (tally (extensionsSeen host fs (fsPath selection) files))))
  | Throw _ =>
      [infoItem "Size (approx): 0 bytes";
       infoItem "Error reading directory contents"]
  end.

(** The rows of the workspace root. *)
Definition rootRows (host : Host) (fs : FileSystem)
    (root : string) : list DirectoryItem :=
  workspaceItem root ::
  match readdirSync fs root with
  | Normal files =>
      infoItem
        ("Root contains: " ++ numberToString (N.of_nat (List.length files)) ++
         " items") ::
      counterRows (countChildren host fs root isChildDirectory files)
                  (countChildren host fs root isChildFile files)
  | Throw _ => []
  end.

(** The rows of the top level. *)
Definition rowsOf (host : Host) (fs : FileSystem)
    (this : SelectedItemProvider) : list DirectoryItem :=
  match currentSelection this with
  | Some selection =>
      match statSync fs (fsPath selection) with
      | Normal stats =>
          if isDirectory stats then directoryRows host fs selection stats
          else fileRows host selection stats
      | Throw _ => [infoItem "Error reading file information"]
      end
  | None =>
      match workspaceRoot this with
      | Some root =>
          if truthy root then rootRows host fs root
          else [infoItem "No workspace or selection"]
      | None => [infoItem "No workspace or selection"]
      end
  end.

(** A row that carries nothing but its label. *)
Definition isPlainRow (item : DirectoryItem) : Prop :=
  fullPath item = None /\ contextValue item = None /\
  tooltip item = None /\ description item = None.

(** The two counters of [countFileTypes]. *)
Definition isCounter (key : string) : bool :=
  String.eqb key "directories" || String.eqb key "files".


(** Reading a non-empty string of octal digits back as a number. *)
Fixpoint parseOctalFrom (value : N) (digits : string) : option N :=
  match digits with
  | EmptyString => Some value
  | String c rest =>
      let code := N_of_ascii c in
      if ((48 <=? code) && (code <=? 55))%N
      then parseOctalFrom (8 * value + (code - 48)) rest
      else None
  end.

Definition parseOctal (digits : string) : option N :=
  match digits with
  | EmptyString => None
  | String _ _ => parseOctalFrom 0 digits
  end.

(** The check behind the permission digits, for one value of the nine
    bits. *)
Definition octalDigitsRoundTrip (bits : N) : bool :=
  let digits := toOctalString bits in
  Nat.leb 1 (String.length digits) && Nat.leb (String.length digits) 3 &&
  match parseOctal digits with
  | Some value => (value =? bits)%N
  | None => false
  end &&
  (String.eqb digits "0" || negb (String.prefix "0" digits)).

(* ================================================================== *)
(** ** The minimal provider, [src/extension.ts] *)

Module Simple.

(** [class DirectoryItem extends vscode.TreeItem] *)
Record DirectoryItem : Type := mkDirectoryItem {
  label : string;
  collapsibleState : TreeItemCollapsibleState
}.

(** [class SimpleDirectoryProvider] *)
Record SimpleDirectoryProvider : Type := mkProvider {
  workspaceRoot : option string
}.

(** [getTreeItem(element)] *)
Definition getTreeItem (element : DirectoryItem) : DirectoryItem := element.

(** [vscode.window.showInformationMessage(message)]: the local threaded
    through is the list of messages the window has shown. *)
Definition showInformationMessage (message : string)
  : Eff.t (list string) unit :=
  Eff.modify (fun shown => shown ++ [message]).

(** [getChildren(element?)] *)
Definition getChildren (this : SimpleDirectoryProvider)
    (element : option DirectoryItem)
  : Eff.t (list string) (list DirectoryItem) :=
  if negb (truthyOpt (workspaceRoot this)) then
    Eff.bind (showInformationMessage "No workspace folder open")
      (fun _ => Eff.ret [])
  else
    match element with
    | None =>
        match workspaceRoot this with
        | Some root =>
            let folderName := Path.basename root in
            Eff.ret
              [ {| label := "Current Directory: " ++ folderName;
                   collapsibleState := CollapsibleNone |} ]
        | None => Eff.ret []
        end
    | Some _ => Eff.ret []
    end.

(** [activate(context)]: the provider it registers. *)
Definition activate (folders : option (list Uri)) : SimpleDirectoryProvider :=
  {| workspaceRoot := firstFolderPath folders |}.

End Simple.

(* ================================================================== *)
(** ** More sample inputs *)

Module MoreSamples.

(** An empty directory, [/e], and a file without extension, [/e.d/README],
    in a directory whose name has a dot. *)
Definition disk : FileSystem :=
  {| statSync := fun p =>
       if String.eqb p "/e" then Normal (Sample.stats true 4096)
       else if String.eqb p "/e.d" then Normal (Sample.stats true 4096)
       else if String.eqb p "/e.d/README" then Normal (Sample.stats false 7)
       else if String.eqb p "/e.d/Notes.TXT" then Normal (Sample.stats false 9)
       else Throw ENOENT;
     readdirSync := fun p =>
       if String.eqb p "/e" then Normal []
       else if String.eqb p "/e.d" then Normal ["README"; "Notes.TXT"]
       else Throw ENOENT;
     existsSync := fun p => String.eqb p "/e" || Js.startsWith p "/e.d" |}.

(** A runtime whose [toLowerCase] has the case tables of the code units
    up to U+00FF: besides [A] to [Z], the capital letters U+00C0 to
    U+00DE, the sign U+00D7 excepted, go 32 code units up. *)
Definition lowerLatin1Char (c : ascii) : ascii :=
  let n := N_of_ascii c in
  if (((65 <=? n) && (n <=? 90)) ||
      ((192 <=? n) && (n <=? 222) && negb (n =? 215)))%N
  then ascii_of_N (n + 32) else c.

Fixpoint lowerCaseLatin1 (s : string) : string :=
  match s with
  | EmptyString => EmptyString
  | String c s' => String (lowerLatin1Char c) (lowerCaseLatin1 s')
  end.

Definition latinHost : Host :=
  {| toLocaleString := fun _ => "1/1/1970, 12:00:00 AM";
     UriFile := fun text => Normal (mkUri text);
     toLowerCase := lowerCaseLatin1;
     toLowerCase_empty := eq_refl;
     toLowerCase_dot :=
       fun rest => ex_intro _ (lowerCaseLatin1 rest) eq_refl |}.

(** The letters U+00C9 and U+00E9, E with acute, capital and small. *)
Definition capitalEAcute : string := String "201"%char "".
Definition smallEAcute : string := String "233"%char "".

(** A directory, [/accents], holding files whose extensions are accented
    letters and [txt] in both cases. *)
Definition accentedListing : list string :=
  [("a." ++ capitalEAcute)%string; ("b." ++ smallEAcute)%string;
   "c.txt"; "d.TXT"].

Definition accentedDisk : FileSystem :=
  {| statSync := fun p =>
       if String.eqb p "/accents" then Normal (Sample.stats true 4096)
       else if Js.startsWith p "/accents/" then Normal (Sample.stats false 1)
       else Throw ENOENT;
     readdirSync := fun p =>
       if String.eqb p "/accents" then Normal accentedListing
       else Throw ENOENT;
     existsSync := fun p => Js.startsWith p "/accents" |}.

(** A directory, [/g], that lists two names neither of which can be
    stat-ed (dangling links, say). *)
Definition ghostDisk : FileSystem :=
  {| statSync := fun p =>
       if String.eqb p "/g" then Normal (Sample.stats true 4096)
       else Throw ENOENT;
     readdirSync := fun p =>
       if String.eqb p "/g" then Normal ["gone.txt"; "lost"]
       else Throw ENOENT;
     existsSync := fun p => String.eqb p "/g" |}.

Definition workbench : Workbench :=
  {| workspaceFolders := Some [mkUri "/w/d"; mkUri "/e"];
     activeTextEditor := Some (mkUri "/w/d/a.txt") |}.

Definition session : list Event :=
  [ ActiveTextEditorChanged None;
    WindowStateChanged (Normal tt) "hello world";
    SelectPathAnswered (Some []);
    WindowStateChanged (Normal tt) "/w/d";
    HelloWorld;
    SelectPathAnswered None ].

End MoreSamples.

(* ================================================================== *)
(** ** Facts about strings *)

Lemma length_append (s t : string) :
  String.length (s ++ t) = String.length s + String.length t.
Proof.
  induction s as [|c s IH]; simpl; [reflexivity | now rewrite IH].
Qed.

Lemma substring_two_parts (b : nat) :
  forall (s : string) (c : nat),
    b + c = String.length s ->
    s = (String.substring 0 b s ++ String.substring b c s)%string.
Proof.
  induction b as [|b IH]; intros s c Hlen.
  - destruct s as [|ch s]; simpl in *.
    + subst c. reflexivity.
    + subst c. simpl. f_equal.
      clear ch. induction s as [|ch s IHs]; simpl; [reflexivity|].
      now f_equal.
  - destruct s as [|ch s]; simpl in *; [discriminate|].
    f_equal. apply IH. lia.
Qed.

Lemma substring_three_parts (a : nat) :
  forall (s : string) (b c : nat),
    a + b + c = String.length s ->
    s = (String.substring 0 a s ++ String.substring a b s ++
         String.substring (a + b) c s)%string.
Proof.
  induction a as [|a IH]; intros s b c Hlen.
  - simpl plus. replace (String.substring 0 0 s) with EmptyString
      by (destruct s; reflexivity).
    simpl. now apply substring_two_parts.
  - destruct s as [|ch s]; simpl in *; [discriminate|].
    f_equal. apply IH. lia.
Qed.

Lemma length_substring (a : nat) :
  forall (s : string) (b : nat),
    a + b <= String.length s ->
    String.length (String.substring a b s) = b.
Proof.
  induction a as [|a IH]; intros s b Hlen.
  - revert s Hlen. induction b as [|b IHb]; intros s Hlen.
    + destruct s; reflexivity.
    + destruct s as [|ch s]; simpl in *; [lia|].
      f_equal. apply IHb. lia.
  - destruct s as [|ch s]; simpl in *; [lia|].
    apply IH. lia.
Qed.

(* ================================================================== *)
(** ** Path descriptions *)

(** C5.  A path of at most 40 characters is returned unchanged.  A longer
    one is returned as its first 17 characters, then three dots, then its
    last 17 characters: 37 characters in all. *)
Theorem formatPath_middle_ellipsis (p : string) :
  (String.length p <= 40 -> formatPath p = p) /\
  (40 < String.length p ->
   exists first middle last : string,
     p = (first ++ middle ++ last)%string /\
     String.length first = 17 /\
     String.length last = 17 /\
     formatPath p = (first ++ "..." ++ last)%string /\
     String.length (formatPath p) = 17 + 3 + 17).
Proof.
  unfold formatPath, maxLength. split; intro Hlen.
  - apply Nat.leb_le in Hlen. now rewrite Hlen.
  - assert (Hleb : Nat.leb (String.length p) 40 = false)
      by (apply Nat.leb_gt; exact Hlen).
    rewrite Hleb. clear Hleb.
    change (40 / 2 - 3) with 17.
    unfold substring, substringFrom.
    set (n := String.length p) in *.
    replace (n - (n - 17)) with 17 by lia.
    change (17 - 0) with 17.
    exists (String.substring 0 17 p),
           (String.substring 17 (n - 34) p),
           (String.substring (n - 17) 17 p).
    assert (H1 : String.length (String.substring 0 17 p) = 17)
      by (apply length_substring; fold n; lia).
    assert (H2 : String.length (String.substring (n - 17) 17 p) = 17)
      by (apply length_substring; fold n; lia).
    repeat split; trivial.
    + replace (n - 17) with (17 + (n - 34)) by lia.
      apply substring_three_parts. fold n. lia.
    + rewrite !length_append, H1, H2. reflexivity.
Qed.

Lemma formatPath_middle_ellipsis_witness :
  (String.length "/w/d" <= 40 /\ formatPath "/w/d" = "/w/d") /\
  (40 < String.length Sample.longPath /\
   exists first middle last : string,
     Sample.longPath = (first ++ middle ++ last)%string /\
     String.length first = 17 /\
     String.length last = 17 /\
     formatPath Sample.longPath = (first ++ "..." ++ last)%string /\
     String.length (formatPath Sample.longPath) = 17 + 3 + 17).
Proof.
  split.
  - split; [simpl; lia|].
    apply (proj1 (formatPath_middle_ellipsis "/w/d")). simpl; lia.
  - split; [vm_compute; lia|].
    apply (proj2 (formatPath_middle_ellipsis Sample.longPath)).
    vm_compute; lia.
Defined.

(* ================================================================== *)
(** ** Sizes *)

Lemma nearestTenth_nearest (num den : N) :
  (0 < den)%N -> NearestTenth (nearestTenth num den) num den.
Proof.
  intro Hden. unfold NearestTenth, nearestTenth.
  assert (Hpos : (2 * den <> 0)%N) by lia.
  pose proof (N.div_mod (20 * num + den) (2 * den) Hpos) as Hdm.
  pose proof (N.mod_lt (20 * num + den) (2 * den) Hpos) as Hlt.
  set (q := ((20 * num + den) / (2 * den))%N) in *.
  set (r := ((20 * num + den) mod (2 * den))%N) in *.
  nia.
Qed.

Lemma toFixed1_oneDecimal (num den : N) :
  toFixed1 num den = oneDecimal (nearestTenth num den).
Proof. reflexivity. Qed.

(** C4.  Below 1024 the size is printed as the number followed by
    " bytes"; from 1024 up to 1024^2 - 1 in KB, from 1024^2 up to
    1024^3 - 1 in MB, from 1024^3 on in GB, each time as the nearest
    number of tenths of the unit, printed with one digit after the
    point. *)
Theorem formatSize_units (b : N) :
  ((b < 1024)%N ->
   formatSize b = (numberToString b ++ " bytes")%string) /\
  ((1024 <= b < 1048576)%N ->
   exists n, NearestTenth n b 1024 /\
             formatSize b = (oneDecimal n ++ " KB")%string) /\
  ((1048576 <= b < 1073741824)%N ->
   exists n, NearestTenth n b 1048576 /\
             formatSize b = (oneDecimal n ++ " MB")%string) /\
  ((1073741824 <= b)%N ->
   exists n, NearestTenth n b 1073741824 /\
             formatSize b = (oneDecimal n ++ " GB")%string).
Proof.
  unfold formatSize.
  change (1024 * 1024 * 1024)%N with 1073741824%N.
  change (1024 * 1024)%N with 1048576%N.
  repeat split.
  - intro H. apply N.ltb_lt in H. now rewrite H.
  - intros [Hlo Hhi].
    assert (H1 : (b <? 1024)%N = false) by (apply N.ltb_ge; exact Hlo).
    apply N.ltb_lt in Hhi. rewrite H1, Hhi.
    exists (nearestTenth b 1024). split; [|reflexivity].
    apply nearestTenth_nearest; lia.
  - intros [Hlo Hhi].
    assert (H1 : (b <? 1024)%N = false) by (apply N.ltb_ge; lia).
    assert (H2 : (b <? 1048576)%N = false) by (apply N.ltb_ge; exact Hlo).
    apply N.ltb_lt in Hhi. rewrite H1, H2, Hhi.
    exists (nearestTenth b 1048576). split; [|reflexivity].
    apply nearestTenth_nearest; lia.
  - intro Hlo.
    assert (H1 : (b <? 1024)%N = false) by (apply N.ltb_ge; lia).
    assert (H2 : (b <? 1048576)%N = false) by (apply N.ltb_ge; lia).
    assert (H3 : (b <? 1073741824)%N = false) by (apply N.ltb_ge; exact Hlo).
    rewrite H1, H2, H3.
    exists (nearestTenth b 1073741824). split; [|reflexivity].
    apply nearestTenth_nearest; lia.
Qed.

Lemma formatSize_units_witness :
  ((512 < 1024)%N /\
   formatSize 512 = (numberToString 512 ++ " bytes")%string) /\
  ((1024 <= 1536 < 1048576)%N /\
   exists n, NearestTenth n 1536 1024 /\
             formatSize 1536 = (oneDecimal n ++ " KB")%string) /\
  ((1048576 <= 5242880 < 1073741824)%N /\
   exists n, NearestTenth n 5242880 1048576 /\
             formatSize 5242880 = (oneDecimal n ++ " MB")%string) /\
  ((1073741824 <= 3221225472)%N /\
   exists n, NearestTenth n 3221225472 1073741824 /\
             formatSize 3221225472 = (oneDecimal n ++ " GB")%string).
Proof.
  split; [|split; [|split]].
  - split; [lia|]. apply (proj1 (formatSize_units 512)). lia.
  - split; [lia|]. apply (proj1 (proj2 (formatSize_units 1536))). lia.
  - split; [lia|].
    apply (proj1 (proj2 (proj2 (formatSize_units 5242880)))). lia.
  - split; [lia|].
    apply (proj2 (proj2 (proj2 (formatSize_units 3221225472)))). lia.
Defined.

(** The values at the thresholds and next to them. *)
Example formatSize_at_thresholds :
  map formatSize [0; 1023; 1024; 1536; 1048575; 1048576; 1073741823;
                  1073741824]%N =
  ["0 bytes"; "1023 bytes"; "1.0 KB"; "1.5 KB"; "1024.0 KB"; "1.0 MB";
   "1024.0 MB"; "1.0 GB"].
Proof. vm_compute. reflexivity. Qed.

(** The nearest number of tenths is unique, so [NearestTenth] pins the
    printed value down. *)
Lemma NearestTenth_unique (n m num den : N) :
  NearestTenth n num den -> NearestTenth m num den -> n = m.
Proof. unfold NearestTenth. intros [H1 H2] [H3 H4]. nia. Qed.

(* ================================================================== *)
(** ** The tracker *)

(** C6.  After [refresh(pathA)] and then [refresh(pathB)] the tracker is
    in state [HasSelection pathB], and is the same tracker whatever
    [pathA] was; [refresh()] leads to [NoSelection] from every state. *)
Theorem refresh_replaces_selection
    (this : SelectedItemProvider) (pathA pathB : Uri) :
  selectionState (refresh (Some pathB) (refresh (Some pathA) this)) =
    HasSelection pathB /\
  (forall pathA' : Uri,
     refresh (Some pathB) (refresh (Some pathA) this) =
     refresh (Some pathB) (refresh (Some pathA') this)) /\
  (forall (host : Host) (fs : FileSystem) (element : option DirectoryItem),
     getChildren host fs (refresh (Some pathB) (refresh (Some pathA) this))
       element =
     getChildren host fs (refresh (Some pathB) this) element) /\
  selectionState (refresh None this) = NoSelection.
Proof.
  repeat split.
Qed.

(* ================================================================== *)
(** ** Rows for a selection that cannot be read *)

(** C1.  When [statSync] throws for the selected path, the row list is the
    single row "Error reading file information", and [getChildren]
    completes normally. *)
Theorem getChildren_stat_failure
    (host : Host) (fs : FileSystem) (this : SelectedItemProvider)
    (selection : Uri) (error : Error) :
  currentSelection this = Some selection ->
  statSync fs (fsPath selection) = Throw error ->
  getChildren host fs this None =
    Normal [infoItem "Error reading file information"].
Proof.
  intros Hsel Hstat.
  unfold getChildren, selectionRows, Eff.bind, Eff.tryCatch, Eff.call.
  rewrite Hsel, Hstat. reflexivity.
Qed.

Lemma getChildren_stat_failure_witness :
  getChildren Sample.host Sample.disk (Sample.selecting "/w/missing") None =
    Normal [infoItem "Error reading file information"].
Proof.
  apply (@getChildren_stat_failure Sample.host Sample.disk
           (Sample.selecting "/w/missing") (mkUri "/w/missing") ENOENT);
    reflexivity.
Defined.

(** [calculateDirSize] gives 0 when the listing cannot be read. *)
Lemma calculateDirSize_unreadable
    (fs : FileSystem) (dirPath : string) (error : Error) :
  readdirSync fs dirPath = Throw error ->
  calculateDirSize fs dirPath = Normal 0%N.
Proof.
  intro Hdir.
  unfold calculateDirSize, Eff.bind, Eff.tryCatch, Eff.call.
  rewrite Hdir. reflexivity.
Qed.

(** C10.  For a directory whose listing cannot be read,
    [calculateDirSize] returns 0 and does not throw; when the directory
    itself can be stat-ed, its rows are the four opening rows, the row
    "Size (approx): 0 bytes", and the row that reports the unreadable
    listing. *)
Theorem unreadable_directory_rows
    (host : Host) (fs : FileSystem) (this : SelectedItemProvider)
    (selection : Uri) (stats : Stats) (error : Error) :
  currentSelection this = Some selection ->
  statSync fs (fsPath selection) = Normal stats ->
  isDirectory stats = true ->
  readdirSync fs (fsPath selection) = Throw error ->
  calculateDirSize fs (fsPath selection) = Normal 0%N /\
  getChildren host fs this None =
    Normal (statRows host selection stats ++
            [infoItem "Size (approx): 0 bytes";
             infoItem "Error reading directory contents"]).
Proof.
  intros Hsel Hstat Hdir Hlist.
  pose proof (calculateDirSize_unreadable fs _ Hlist) as Hsize.
  split; [exact Hsize|].
  unfold getChildren, selectionRows, statRows, push,
    Eff.bind, Eff.tryCatch, Eff.call, Eff.modify, Eff.get.
  rewrite Hsel, Hstat, Hdir. cbn [negb].
  rewrite Hsize, Hlist. reflexivity.
Qed.

Lemma unreadable_directory_rows_witness :
  calculateDirSize Sample.lockedDisk "/locked" = Normal 0%N /\
  getChildren Sample.host Sample.lockedDisk (Sample.selecting "/locked") None =
    Normal (statRows Sample.host (mkUri "/locked") (Sample.stats true 4096) ++
            [infoItem "Size (approx): 0 bytes";
             infoItem "Error reading directory contents"]).
Proof.
  apply (@unreadable_directory_rows Sample.host Sample.lockedDisk
           (Sample.selecting "/locked") (mkUri "/locked")
           (Sample.stats true 4096) EACCES); reflexivity.
Defined.

(* ================================================================== *)
(** ** Selection inferred from the clipboard *)

Lemma refresh_changes (selection : option Uri) (this : SelectedItemProvider) :
  refresh selection this <> this.
Proof.
  intro H. apply (f_equal changesFired) in H. simpl in H.
  induction (changesFired this); [discriminate | injection H; auto].
Qed.

(** C9.  The listener changes the tracker only by a refresh, and only when
    the clipboard text starts with "/" or contains ":/" and the path of
    the URI made from it exists; it never throws.  The text
    "hello world" never changes the tracker; the text "/tmp/foo" changes
    it exactly when the command succeeded and that path exists; a text
    that matches neither pattern leaves the tracker as it was. *)
Theorem clipboard_selection_heuristic
    (host : Host) (fs : FileSystem) (copyFilePath : Completion unit)
    (text : string) (this : SelectedItemProvider) :
  (afterWindowState host fs copyFilePath text this <> this ->
   (startsWith text "/" = true \/ includes text ":/" = true) /\
   exists uri,
     UriFile host text = Normal uri /\
     existsSync fs (fsPath uri) = true /\
     afterWindowState host fs copyFilePath text this =
       refresh (Some uri) this) /\
  fst (onDidChangeWindowState host fs copyFilePath text this) = Normal tt /\
  afterWindowState host fs copyFilePath "hello world" this = this /\
  (forall uri,
     UriFile host "/tmp/foo" = Normal uri ->
     afterWindowState host fs copyFilePath "/tmp/foo" this =
       match copyFilePath with
       | Normal _ =>
           if existsSync fs (fsPath uri) then refresh (Some uri) this
           else this
       | Throw _ => this
       end) /\
  (startsWith text "/" = false -> includes text ":/" = false ->
   afterWindowState host fs copyFilePath text this = this).
Proof.
  unfold afterWindowState, onDidChangeWindowState, onClipboardText,
    Eff.when, Eff.tryCatch, Eff.bind, Eff.call, Eff.modify, Eff.ret.
  split; [|split; [|split; [|split]]].
  - destruct copyFilePath as [[]|e]; cbn [snd]; [|congruence].
    destruct (truthy text); cbn [andb]; [|cbn; congruence].
    destruct (startsWith text "/") eqn:Hs, (includes text ":/") eqn:Hi;
      cbn [orb]; try (cbn; congruence);
      (destruct (UriFile host text) as [uri|e] eqn:Hu; [|cbn; congruence];
       destruct (existsSync fs (fsPath uri)) eqn:He; cbn; [|congruence];
       intros _; split; [auto|]; exists uri; auto).
  - destruct copyFilePath as [[]|e]; [|reflexivity].
    destruct (truthy text && (startsWith text "/" || includes text ":/"));
      [|reflexivity].
    destruct (UriFile host text) as [uri|e]; [|reflexivity].
    destruct (existsSync fs (fsPath uri)); reflexivity.
  - destruct copyFilePath as [[]|e]; reflexivity.
  - intros uri Hu. destruct copyFilePath as [[]|e]; [|reflexivity].
    cbn. rewrite Hu.
    destruct (existsSync fs (fsPath uri)); reflexivity.
  - intros Hs Hi. destruct copyFilePath as [[]|e]; [|reflexivity].
    rewrite Hs, Hi, Bool.andb_false_r. reflexivity.
Qed.

Lemma clipboard_selection_heuristic_witness :
  afterWindowState Sample.host Sample.disk (Normal tt) "/w/d"
    (newSelectedItemProvider None) <> newSelectedItemProvider None /\
  exists uri,
    UriFile Sample.host "/w/d" = Normal uri /\
    existsSync Sample.disk (fsPath uri) = true /\
    afterWindowState Sample.host Sample.disk (Normal tt) "/w/d"
      (newSelectedItemProvider None) =
    refresh (Some uri) (newSelectedItemProvider None).
Proof.
  assert (H : afterWindowState Sample.host Sample.disk (Normal tt) "/w/d"
                (newSelectedItemProvider None) <> newSelectedItemProvider None)
    by (vm_compute; discriminate).
  split; [exact H|].
  exact (proj2 (proj1 (clipboard_selection_heuristic Sample.host Sample.disk
                         (Normal tt) "/w/d" (newSelectedItemProvider None)) H)).
Defined.

(* ================================================================== *)
(** ** Approximate directory size *)

Lemma addEntrySize_step (fs : FileSystem) (dirPath file : string)
    (totalSize : N) :
  addEntrySize fs dirPath file totalSize =
  (Normal tt, (totalSize + childSize fs dirPath file)%N).
Proof.
  unfold addEntrySize, childSize, Eff.tryCatch, Eff.bind, Eff.call,
    Eff.modify, Eff.ret.
  destruct (statSync fs (Path.join dirPath file)) as [stats|e].
  - destruct (isDirectory stats); reflexivity.
  - now rewrite N.add_0_r.
Qed.

Lemma addEntrySize_loop (fs : FileSystem) (dirPath : string)
    (files : list string) :
  forall totalSize : N,
    Eff.forOf files (addEntrySize fs dirPath) totalSize =
    (Normal tt, (totalSize + sumN (map (childSize fs dirPath) files))%N).
Proof.
  induction files as [|file files IH]; intro totalSize; simpl.
  - unfold Eff.ret. now rewrite N.add_0_r.
  - unfold Eff.bind. rewrite addEntrySize_step, IH.
    now rewrite N.add_assoc.
Qed.

Lemma calculateDirSize_sum (fs : FileSystem) (dirPath : string)
    (files : list string) :
  readdirSync fs dirPath = Normal files ->
  calculateDirSize fs dirPath =
    Normal (sumN (map (childSize fs dirPath) files)).
Proof.
  intro Hdir.
  unfold calculateDirSize, Eff.bind, Eff.tryCatch, Eff.call, Eff.get.
  rewrite Hdir, addEntrySize_loop. reflexivity.
Qed.

(** C7.  The approximate size of a directory is the sum, over its
    immediate children, of the [size] field [statSync] reports for the
    child, directory or not, and of nothing for a child [statSync] throws
    on.  It is the same on every file system that lists the same children
    and reports the same stats for them, whatever lies below them. *)
Theorem calculateDirSize_immediate_children
    (fs : FileSystem) (dirPath : string) (files : list string) :
  readdirSync fs dirPath = Normal files ->
  calculateDirSize fs dirPath =
    Normal (sumN (map (childSize fs dirPath) files)) /\
  (forall file stats,
     statSync fs (Path.join dirPath file) = Normal stats ->
     childSize fs dirPath file = size stats) /\
  (forall file error,
     statSync fs (Path.join dirPath file) = Throw error ->
     childSize fs dirPath file = 0%N) /\
  (forall fs' : FileSystem,
     readdirSync fs' dirPath = Normal files ->
     (forall file, In file files ->
        statSync fs' (Path.join dirPath file) =
        statSync fs (Path.join dirPath file)) ->
     calculateDirSize fs' dirPath = calculateDirSize fs dirPath).
Proof.
  intro Hdir. split; [|split; [|split]].
  - now apply calculateDirSize_sum.
  - intros file stats H. unfold childSize. now rewrite H.
  - intros file error H. unfold childSize. now rewrite H.
  - intros fs' Hdir' Hsame.
    rewrite (calculateDirSize_sum _ _ Hdir), (calculateDirSize_sum _ _ Hdir').
    do 2 f_equal. apply map_ext_in. intros file Hin.
    unfold childSize. now rewrite Hsame.
Qed.

Lemma calculateDirSize_immediate_children_witness :
  readdirSync Sample.disk "/w/d" = Normal ["a.txt"; "b.txt"; "c.md"; "sub"] /\
  calculateDirSize Sample.disk "/w/d" =
    Normal (sumN (map (childSize Sample.disk "/w/d")
                    ["a.txt"; "b.txt"; "c.md"; "sub"])).
Proof.
  split; [reflexivity|].
  apply (proj1 (@calculateDirSize_immediate_children Sample.disk "/w/d"
                  ["a.txt"; "b.txt"; "c.md"; "sub"] eq_refl)).
Defined.

(** On the sample directory: 10 + 20 + 30 bytes of files and the 4096
    bytes of the entry [sub]. *)
Example calculateDirSize_sample :
  calculateDirSize Sample.disk "/w/d" = Normal 4156%N.
Proof. vm_compute. reflexivity. Qed.

(* ================================================================== *)
(** ** The counting object *)

Lemma get_set_same (key : string) (value : N) (counts : Counts) :
  Counts.get key (Counts.set key value counts) = Some value.
Proof.
  induction counts as [|[k v] rest IH]; simpl.
  - now rewrite String.eqb_refl.
  - destruct (String.eqb k key) eqn:E; simpl; rewrite E; auto.
Qed.

Lemma get_set_other (key key' : string) (value : N) (counts : Counts) :
  key <> key' ->
  Counts.get key' (Counts.set key value counts) = Counts.get key' counts.
Proof.
  intro Hne. induction counts as [|[k v] rest IH]; simpl.
  - apply String.eqb_neq in Hne. now rewrite Hne.
  - destruct (String.eqb k key) eqn:E; simpl.
    + apply String.eqb_eq in E. subst k.
      apply String.eqb_neq in Hne. now rewrite Hne.
    + destruct (String.eqb k key'); auto.
Qed.

Lemma occurrences_cons (key k : string) (keys : list string) :
  occurrences key (k :: keys) =
  ((if String.eqb key k then 1 else 0) + occurrences key keys)%N.
Proof.
  unfold occurrences. cbn [filter].
  destruct (String.eqb key k); cbn [List.length];
    rewrite ?Nat2N.inj_succ; lia.
Qed.

Lemma occurrences_app (key : string) (l1 l2 : list string) :
  occurrences key (l1 ++ l2) = (occurrences key l1 + occurrences key l2)%N.
Proof.
  unfold occurrences. rewrite filter_app, length_app. lia.
Qed.

(** Reading a property after a run of increments. *)
Lemma get_incrementAll (key : string) (keys : list string) :
  forall counts,
    Counts.get key (incrementAll keys counts) =
    if (occurrences key keys =? 0)%N then Counts.get key counts
    else Some (Counts.getOrZero key counts + occurrences key keys)%N.
Proof.
  induction keys as [|k keys IH]; intro counts.
  - reflexivity.
  - unfold incrementAll in *. simpl fold_left. rewrite IH.
    rewrite occurrences_cons. unfold Counts.increment, Counts.getOrZero.
    destruct (String.eqb key k) eqn:E.
    + apply String.eqb_eq in E. subst k. rewrite get_set_same.
      destruct (occurrences key keys =? 0)%N eqn:Z.
      * apply N.eqb_eq in Z. rewrite Z.
        replace (1 + 0 =? 0)%N with false by reflexivity.
        f_equal; lia.
      * replace (1 + occurrences key keys =? 0)%N with false
          by (symmetry; apply N.eqb_neq; lia).
        f_equal; lia.
    + apply String.eqb_neq in E.
      rewrite get_set_other by congruence.
      rewrite N.add_0_l. reflexivity.
Qed.

(** The loop of [countFileTypes] is a run of increments and never
    throws. *)
Lemma countEntry_step (host : Host) (fs : FileSystem)
    (directoryPath file : string)
    (counts : Counts) :
  countEntry host fs directoryPath file counts =
  (Normal tt, incrementAll (keysOf (classify host fs directoryPath file)) counts).
Proof.
  unfold countEntry, classify, Eff.tryCatch, Eff.bind, Eff.call,
    Eff.modify, Eff.ret.
  destruct (statSync fs (Path.join directoryPath file)) as [stats|e];
    [|reflexivity].
  destruct (isDirectory stats); [reflexivity|].
  unfold keysOf, bucketOf.
  destruct (truthy (toLowerCase host (Path.extname file))); reflexivity.
Qed.

Lemma countEntry_loop (host : Host) (fs : FileSystem) (directoryPath : string)
    (files : list string) :
  forall counts,
    Eff.forOf files (countEntry host fs directoryPath) counts =
    (Normal tt, incrementAll (incrementsOf host fs directoryPath files) counts).
Proof.
  induction files as [|file files IH]; intro counts.
  - reflexivity.
  - simpl Eff.forOf. unfold Eff.bind. rewrite countEntry_step, IH.
    unfold incrementsOf, incrementAll. simpl flat_map.
    now rewrite fold_left_app.
Qed.

Lemma countFileTypes_readable (host : Host) (fs : FileSystem)
    (directoryPath : string)
    (files : list string) :
  readdirSync fs directoryPath = Normal files ->
  countFileTypes host fs directoryPath =
    Normal (incrementAll (incrementsOf host fs directoryPath files)
              [("directories", 0%N); ("files", 0%N)]).
Proof.
  intro Hdir. unfold countFileTypes. rewrite Hdir, countEntry_loop.
  reflexivity.
Qed.

(** A lower-cased extension is empty or opens with a dot. *)
Lemma extname_shape (p : string) :
  Path.extname p = "" \/ exists rest, Path.extname p = String "." rest.
Proof.
  unfold Path.extname.
  destruct (Path.dropWhile Path.notDot (Path.lastPortionRev p))
    as [|c [|c' before]]; auto.
  destruct (Path.takeWhile Path.notDot (Path.lastPortionRev p)).
  - destruct before.
    + destruct (Ascii.eqb c' Path.dot); [auto | right; eauto].
    + right; eauto.
  - right; eauto.
Qed.

Lemma lowered_extension_shape (host : Host) (p : string) :
  toLowerCase host (Path.extname p) = "" \/
  exists rest, toLowerCase host (Path.extname p) = String "." rest.
Proof.
  destruct (extname_shape p) as [H | [rest H]]; rewrite H.
  - left. apply toLowerCase_empty.
  - right. apply toLowerCase_dot.
Qed.

Lemma classify_file_shape (host : Host) (fs : FileSystem)
    (directoryPath file : string)
    (extension : string) :
  classify host fs directoryPath file = ChildFile extension ->
  extension = toLowerCase host (Path.extname file) /\
  (extension = "" \/ exists rest, extension = String "." rest).
Proof.
  unfold classify.
  destruct (statSync fs (Path.join directoryPath file)) as [stats|e];
    [|discriminate].
  destruct (isDirectory stats); [discriminate|].
  intro H. injection H as <-. split; [reflexivity|].
  apply lowered_extension_shape.
Qed.

(** The bucket of a file is "no-extension" or opens with a dot, so it is
    neither of the two counters. *)
Lemma bucketOf_shape (extension : string) :
  (extension = "" \/ exists rest, extension = String "." rest) ->
  bucketOf extension = "no-extension" \/
  exists rest, bucketOf extension = String "." rest /\
               extension = String "." rest.
Proof.
  intros [-> | [rest ->]]; [now left | right; now exists rest].
Qed.

Lemma countChildren_cons (host : Host) (fs : FileSystem)
    (directoryPath : string)
    (p : ChildKind -> bool) (file : string) (files : list string) :
  countChildren host fs directoryPath p (file :: files) =
  ((if p (classify host fs directoryPath file) then 1 else 0) +
   countChildren host fs directoryPath p files)%N.
Proof.
  unfold countChildren. cbn [filter].
  destruct (p (classify host fs directoryPath file)); cbn [List.length];
    rewrite ?Nat2N.inj_succ; lia.
Qed.

Lemma countChildren_positive (host : Host) (fs : FileSystem)
    (directoryPath : string)
    (p : ChildKind -> bool) (file : string) (files : list string) :
  In file files ->
  p (classify host fs directoryPath file) = true ->
  (0 < countChildren host fs directoryPath p files)%N.
Proof.
  intros Hin Hp. unfold countChildren.
  assert (H : In file (filter (fun f => p (classify host fs directoryPath f)) files))
    by (apply filter_In; auto).
  destruct (filter (fun f => p (classify host fs directoryPath f)) files);
    [contradiction | cbn [List.length]; lia].
Qed.

(** Counting the increments of one property over a listing. *)
Lemma occurrences_incrementsOf (host : Host) (fs : FileSystem)
    (directoryPath : string)
    (key : string) (p : ChildKind -> bool) :
  (forall file,
     occurrences key (keysOf (classify host fs directoryPath file)) =
     if p (classify host fs directoryPath file) then 1%N else 0%N) ->
  forall files,
    occurrences key (incrementsOf host fs directoryPath files) =
    countChildren host fs directoryPath p files.
Proof.
  intros Hone files. induction files as [|file files IH].
  - reflexivity.
  - unfold incrementsOf in *. cbn [flat_map].
    now rewrite occurrences_app, countChildren_cons, Hone, IH.
Qed.

Lemma occurrences_directories (host : Host) (fs : FileSystem)
    (directoryPath : string)
    (files : list string) :
  occurrences "directories" (incrementsOf host fs directoryPath files) =
  countChildren host fs directoryPath isChildDirectory files.
Proof.
  apply occurrences_incrementsOf. intro file.
  destruct (classify host fs directoryPath file) as [|extension|] eqn:E;
    try reflexivity.
  apply classify_file_shape in E. destruct E as [_ Hshape].
  destruct (bucketOf_shape Hshape) as [Hb | [rest [Hb _]]];
    cbn [keysOf isChildDirectory]; rewrite Hb; reflexivity.
Qed.

Lemma occurrences_files (host : Host) (fs : FileSystem) (directoryPath : string)
    (files : list string) :
  occurrences "files" (incrementsOf host fs directoryPath files) =
  countChildren host fs directoryPath isChildFile files.
Proof.
  apply occurrences_incrementsOf. intro file.
  destruct (classify host fs directoryPath file) as [|extension|] eqn:E;
    try reflexivity.
  apply classify_file_shape in E. destruct E as [_ Hshape].
  destruct (bucketOf_shape Hshape) as [Hb | [rest [Hb _]]];
    cbn [keysOf isChildFile]; rewrite Hb; reflexivity.
Qed.

Lemma occurrences_bucket (host : Host) (fs : FileSystem)
    (directoryPath : string)
    (key : string) (files : list string) :
  key <> "directories" -> key <> "files" ->
  occurrences key (incrementsOf host fs directoryPath files) =
  countChildren host fs directoryPath (isFileInBucket key) files.
Proof.
  intros Hd Hf. apply occurrences_incrementsOf. intro file.
  apply String.eqb_neq in Hd, Hf.
  destruct (classify host fs directoryPath file) as [|extension|];
    cbn [keysOf isFileInBucket]; rewrite ?occurrences_cons, ?Hd, ?Hf.
  - reflexivity.
  - rewrite (String.eqb_sym (bucketOf extension) key).
    destruct (String.eqb key (bucketOf extension)); reflexivity.
  - reflexivity.
Qed.

(** What [countFileTypes] returns for a readable directory, property by
    property. *)
Lemma countFileTypes_get (host : Host) (fs : FileSystem)
    (directoryPath : string)
    (files : list string) :
  readdirSync fs directoryPath = Normal files ->
  exists counts,
    countFileTypes host fs directoryPath = Normal counts /\
    counts = incrementAll (incrementsOf host fs directoryPath files)
               [("directories", 0%N); ("files", 0%N)] /\
    Counts.get "directories" counts =
      Some (countChildren host fs directoryPath isChildDirectory files) /\
    Counts.get "files" counts =
      Some (countChildren host fs directoryPath isChildFile files) /\
    (forall key, key <> "directories" -> key <> "files" ->
       Counts.get key counts =
       if (countChildren host fs directoryPath (isFileInBucket key) files =? 0)%N
       then None
       else Some (countChildren host fs directoryPath (isFileInBucket key) files)).
Proof.
  intro Hdir. eexists. split; [exact (countFileTypes_readable host _ _ Hdir)|].
  split; [reflexivity|]. split; [|split].
  - rewrite get_incrementAll, occurrences_directories.
    destruct (countChildren host fs directoryPath isChildDirectory files =? 0)%N
      eqn:Z; [apply N.eqb_eq in Z; now rewrite Z | reflexivity].
  - rewrite get_incrementAll, occurrences_files.
    destruct (countChildren host fs directoryPath isChildFile files =? 0)%N
      eqn:Z; [apply N.eqb_eq in Z; now rewrite Z | reflexivity].
  - intros key Hd Hf.
    rewrite get_incrementAll, occurrences_bucket by assumption.
    assert (Hg : Counts.get key [("directories", 0%N); ("files", 0%N)] = None).
    { cbn [Counts.get].
      rewrite (String.eqb_sym "directories" key), (String.eqb_sym "files" key).
      apply String.eqb_neq in Hd, Hf. now rewrite Hd, Hf. }
    unfold Counts.getOrZero. rewrite Hg. reflexivity.
Qed.

(** Children [statSync] throws on add no increment. *)
Lemma incrementsOf_skips_unreadable (host : Host) (fs fs' : FileSystem)
    (directoryPath : string) (files : list string) :
  (forall file, In file files ->
     statSync fs' (Path.join directoryPath file) =
     statSync fs (Path.join directoryPath file)) ->
  incrementsOf host fs' directoryPath
    (filter (fun file => isChildReadable (classify host fs directoryPath file))
       files) =
  incrementsOf host fs directoryPath files.
Proof.
  induction files as [|file files IH]; intro Hsame; [reflexivity|].
  assert (Hc : classify host fs' directoryPath file = classify host fs directoryPath file)
    by (unfold classify; rewrite Hsame; [reflexivity | now left]).
  assert (IH' := IH (fun f Hin => Hsame f (or_intror Hin))).
  unfold incrementsOf in *. cbn [filter flat_map].
  destruct (classify host fs directoryPath file) eqn:E; cbn [isChildReadable];
    cbn [flat_map]; rewrite ?Hc, IH'; reflexivity.
Qed.

(* ================================================================== *)
(** ** Counting children by type *)

(** C2, as the code has it.  For a readable directory, [countFileTypes]
    looks at the immediate children only.  A child that is a directory
    adds one to "directories"; any other child adds one to "files" and
    one to the property named by its lower-cased extension, leading dot
    included, or to "no-extension" when the extension is empty.  A child
    [statSync] throws on adds nothing anywhere: the result is the one of
    the listing without such children. *)
Theorem countFileTypes_buckets
    (host : Host) (fs : FileSystem) (directoryPath : string) (files : list string) :
  readdirSync fs directoryPath = Normal files ->
  exists counts,
    countFileTypes host fs directoryPath = Normal counts /\
    Counts.get "directories" counts =
      Some (countChildren host fs directoryPath isChildDirectory files) /\
    Counts.get "files" counts =
      Some (countChildren host fs directoryPath isChildFile files) /\
    (forall file stats,
       In file files ->
       statSync fs (Path.join directoryPath file) = Normal stats ->
       isDirectory stats = false ->
       let extension := toLowerCase host (Path.extname file) in
       let bucket := if truthy extension then extension else "no-extension" in
       (extension = "" \/ exists rest, extension = String "." rest) /\
       (0 < countChildren host fs directoryPath (isFileInBucket bucket) files)%N /\
       Counts.get bucket counts =
         Some (countChildren host fs directoryPath (isFileInBucket bucket) files)) /\
    (forall key, key <> "directories" -> key <> "files" ->
       Counts.get key counts =
       if (countChildren host fs directoryPath (isFileInBucket key) files =? 0)%N
       then None
       else Some (countChildren host fs directoryPath (isFileInBucket key) files)) /\
    (forall fs' : FileSystem,
       (forall file, In file files ->
          statSync fs' (Path.join directoryPath file) =
          statSync fs (Path.join directoryPath file)) ->
       readdirSync fs' directoryPath =
         Normal (filter
                   (fun file => isChildReadable (classify host fs directoryPath file))
                   files) ->
       countFileTypes host fs' directoryPath = Normal counts).
Proof.
  intro Hdir.
  destruct (countFileTypes_get host fs directoryPath Hdir)
    as (counts & Hrun & Hdef & Hd & Hf & Hkeys).
  exists counts. repeat (split; [assumption|]). split; [|split].
  - intros file stats Hin Hstat Hfile extension bucket.
    assert (Hc : classify host fs directoryPath file = ChildFile extension)
      by (unfold classify; now rewrite Hstat, Hfile).
    pose proof (lowered_extension_shape host file) as Hshape.
    fold extension in Hshape.
    assert (Hb : bucket = bucketOf extension) by reflexivity.
    assert (Hpos : (0 < countChildren host fs directoryPath
                           (isFileInBucket bucket) files)%N).
    { apply countChildren_positive with (file := file); [assumption|].
      rewrite Hc. cbn [isFileInBucket]. rewrite Hb. apply String.eqb_refl. }
    split; [assumption|]. split; [assumption|].
    rewrite Hkeys.
    + destruct (countChildren host fs directoryPath (isFileInBucket bucket) files
                  =? 0)%N eqn:Z; [apply N.eqb_eq in Z; lia | reflexivity].
    + rewrite Hb. destruct (bucketOf_shape Hshape) as [E | [rest [E _]]];
        rewrite E; discriminate.
    + rewrite Hb. destruct (bucketOf_shape Hshape) as [E | [rest [E _]]];
        rewrite E; discriminate.
  - assumption.
  - intros fs' Hsame Hdir'.
    rewrite (countFileTypes_readable host _ _ Hdir'), Hdef.
    now rewrite incrementsOf_skips_unreadable.
Qed.

Lemma countFileTypes_buckets_witness :
  readdirSync Sample.disk "/w/d" = Normal ["a.txt"; "b.txt"; "c.md"; "sub"] /\
  exists counts,
    countFileTypes Sample.host Sample.disk "/w/d" = Normal counts /\
    Counts.get "directories" counts = Some 1%N /\
    Counts.get ".txt" counts = Some 2%N.
Proof.
  split; [reflexivity|].
  destruct (@countFileTypes_buckets Sample.host Sample.disk "/w/d"
              ["a.txt"; "b.txt"; "c.md"; "sub"] eq_refl)
    as (counts & Hrun & Hd & _ & Hfile & _).
  exists counts. split; [exact Hrun|]. split; [exact Hd|].
  exact (proj2 (proj2 (Hfile "a.txt" (Sample.stats false 10)
                         (or_introl eq_refl) eq_refl eq_refl))).
Defined.

(** The properties of the sample directory: the extensions keep their
    dot. *)
Example countFileTypes_sample :
  countFileTypes Sample.host Sample.disk "/w/d" =
    Normal [("directories", 1%N); ("files", 3%N); (".txt", 2%N);
            (".md", 1%N)].
Proof. vm_compute. reflexivity. Qed.

(** C2 as worded, with the dot left off the property name, fails: for the
    sample directory the file [a.txt] is counted under ".txt", and there
    is no property "txt". *)
Lemma countFileTypes_bucket_without_dot_fails :
  ~ (forall (host : Host) (fs : FileSystem) (directoryPath : string) (files : list string)
            (counts : Counts) (file : string) (stats : Stats),
       readdirSync fs directoryPath = Normal files ->
       countFileTypes host fs directoryPath = Normal counts ->
       In file files ->
       statSync fs (Path.join directoryPath file) = Normal stats ->
       isDirectory stats = false ->
       truthy (Path.extname file) = true ->
       exists n : N,
         (0 < n)%N /\
         Counts.get (substringFrom (toLowerCase host (Path.extname file)) 1) counts
           = Some n).
Proof.
  intro H.
  destruct (H Sample.host Sample.disk "/w/d" ["a.txt"; "b.txt"; "c.md"; "sub"]
              [("directories", 1%N); ("files", 3%N); (".txt", 2%N);
               (".md", 1%N)]
              "a.txt" (Sample.stats false 10)
              eq_refl eq_refl (or_introl eq_refl) eq_refl eq_refl eq_refl)
    as (n & _ & Hget).
  vm_compute in Hget. discriminate.
Qed.

(* ================================================================== *)
(** ** Rows when no selection is held *)

Lemma pushCounters_rows (counts : Counts) (directories files : N)
    (items : list DirectoryItem) :
  Counts.get "directories" counts = Some directories ->
  Counts.get "files" counts = Some files ->
  pushCounters counts items =
    (Normal tt, items ++ counterRows directories files).
Proof.
  intros Hd Hf.
  unfold pushCounters, counterRows, Counts.positive, Counts.getOrZero,
    Eff.when, Eff.bind, Eff.ret, push, Eff.modify.
  rewrite Hd, Hf.
  destruct (0 <? directories)%N, (0 <? files)%N; cbn [app];
    rewrite <- ?app_assoc, ?app_nil_r; reflexivity.
Qed.

(** C8, as the code has it.  With no selection held and a workspace root
    known: when the root can be listed, the rows are the identity row of
    the root, the row "Root contains: n items" for its n immediate
    children, then "Subdirectories" and "Files" with the numbers
    [countFileTypes] finds, each only when positive, and nothing more;
    when the root cannot be listed, the identity row alone.  With no
    workspace root either, the rows are the single row
    "No workspace or selection". *)
Theorem getChildren_without_selection
    (host : Host) (fs : FileSystem) (this : SelectedItemProvider) :
  currentSelection this = None ->
  (forall root,
     workspaceRoot this = Some root -> truthy root = true ->
     (forall files,
        readdirSync fs root = Normal files ->
        getChildren host fs this None =
          Normal ([workspaceItem root;
                   infoItem ("Root contains: " ++
                             numberToString (N.of_nat (List.length files)) ++
                             " items")] ++
                  counterRows (countChildren host fs root isChildDirectory files)
                              (countChildren host fs root isChildFile files))) /\
     (forall error,
        readdirSync fs root = Throw error ->
        getChildren host fs this None = Normal [workspaceItem root])) /\
  (truthyOpt (workspaceRoot this) = false ->
   getChildren host fs this None =
     Normal [infoItem "No workspace or selection"]).
Proof.
  intro Hsel. split.
  - intros root Hroot Htruthy. split.
    + intros files Hdir.
      destruct (countFileTypes_get host fs root Hdir)
        as (counts & Hrun & _ & Hd & Hf & _).
      unfold getChildren, workspaceRows, truthyOpt.
      rewrite Hsel, Hroot, Htruthy.
      unfold Eff.bind at 1.
      unfold Eff.bind at 1. unfold push at 1. unfold Eff.modify at 1.
      unfold Eff.tryCatch, Eff.bind, Eff.call, Eff.get.
      rewrite Hdir. unfold push at 1. unfold Eff.modify at 1.
      rewrite Hrun, (@pushCounters_rows _ _ _ _ Hd Hf). reflexivity.
    + intros error Hdir.
      unfold getChildren, workspaceRows, truthyOpt.
      rewrite Hsel, Hroot, Htruthy.
      unfold Eff.bind, Eff.tryCatch, Eff.call, Eff.get, push, Eff.modify.
      rewrite Hdir. reflexivity.
  - intro Hnone. unfold getChildren. rewrite Hsel, Hnone. reflexivity.
Qed.

Lemma getChildren_without_selection_witness :
  currentSelection (newSelectedItemProvider (Some "/w/d")) = None /\
  getChildren Sample.host Sample.disk (newSelectedItemProvider (Some "/w/d"))
    None =
    Normal ([workspaceItem "/w/d";
             infoItem ("Root contains: " ++
                       numberToString (N.of_nat (List.length
                          ["a.txt"; "b.txt"; "c.md"; "sub"])) ++
                       " items")] ++
            counterRows
              (countChildren Sample.host Sample.disk "/w/d" isChildDirectory
                 ["a.txt"; "b.txt"; "c.md"; "sub"])
              (countChildren Sample.host Sample.disk "/w/d" isChildFile
                 ["a.txt"; "b.txt"; "c.md"; "sub"])).
Proof.
  split; [reflexivity|].
  exact (proj1 (proj1 (@getChildren_without_selection Sample.host Sample.disk
                         (newSelectedItemProvider (Some "/w/d")) eq_refl)
                  "/w/d" eq_refl eq_refl)
           ["a.txt"; "b.txt"; "c.md"; "sub"] eq_refl).
Defined.

(** The three cases on sample inputs, by their labels. *)
Example no_selection_samples :
  labelsOf (getChildren Sample.host Sample.disk
              (newSelectedItemProvider (Some "/w/d")) None) =
    Some ["Workspace: d"; "Root contains: 4 items"; "Subdirectories: 1";
          "Files: 3"] /\
  getChildren Sample.host Sample.lockedDisk
    (newSelectedItemProvider (Some "/locked")) None =
    Normal [workspaceItem "/locked"] /\
  getChildren Sample.host Sample.disk (newSelectedItemProvider None) None =
    Normal [infoItem "No workspace or selection"].
Proof. vm_compute. auto. Qed.

(** C8 as worded fails when the workspace root cannot be listed: the row
    list is then the identity row alone, with no item count. *)
Lemma getChildren_unreadable_root_has_no_item_count :
  ~ (forall (host : Host) (fs : FileSystem) (this : SelectedItemProvider)
            (root : string),
       currentSelection this = None ->
       workspaceRoot this = Some root ->
       truthy root = true ->
       exists (n : N) (typeCounts : list DirectoryItem),
         getChildren host fs this None =
           Normal (workspaceItem root ::
                   infoItem ("Root contains: " ++ numberToString n ++
                             " items") ::
                   typeCounts)).
Proof.
  intro H.
  destruct (H Sample.host Sample.lockedDisk
              (newSelectedItemProvider (Some "/locked")) "/locked"
              eq_refl eq_refl eq_refl)
    as (n & typeCounts & Hrows).
  vm_compute in Hrows. discriminate.
Qed.

(* ================================================================== *)
(** ** The order of the properties *)

Lemma mem_In (key : string) (keys : list string) :
  mem key keys = true <-> In key keys.
Proof.
  unfold mem. rewrite existsb_exists. split.
  - intros (k & Hin & E). apply String.eqb_eq in E. now subst.
  - intro Hin. exists key. split; [assumption | apply String.eqb_refl].
Qed.

Lemma keys_set (key : string) (value : N) (counts : Counts) :
  map fst (Counts.set key value counts) =
  if mem key (map fst counts) then map fst counts
  else map fst counts ++ [key].
Proof.
  induction counts as [|[k v] rest IH]; [reflexivity|].
  cbn [Counts.set map fst mem existsb].
  rewrite (String.eqb_sym key k).
  destruct (String.eqb k key) eqn:E; cbn [orb map fst].
  - reflexivity.
  - rewrite IH. unfold mem. destruct (existsb (String.eqb key) (map fst rest));
      reflexivity.
Qed.

Lemma keys_incrementAll (keys : list string) :
  forall counts,
    map fst (incrementAll keys counts) =
    fold_left seeKey keys (map fst counts).
Proof.
  induction keys as [|k keys IH]; intro counts; [reflexivity|].
  unfold incrementAll in *. cbn [fold_left]. rewrite IH.
  unfold Counts.increment. now rewrite keys_set.
Qed.

Lemma NoDup_seeKey (seen : list string) (key : string) :
  NoDup seen -> NoDup (seeKey seen key).
Proof.
  intro Hnd. unfold seeKey. destruct (mem key seen) eqn:E; [assumption|].
  apply NoDup_app; [assumption | repeat constructor; auto | ].
  intros x Hin [<- | []].
  apply mem_In in Hin. congruence.
Qed.

Lemma NoDup_fold_seeKey (keys : list string) :
  forall seen, NoDup seen -> NoDup (fold_left seeKey keys seen).
Proof.
  induction keys as [|k keys IH]; intros seen Hnd; [assumption|].
  cbn [fold_left]. apply IH. now apply NoDup_seeKey.
Qed.

(** An object with distinct property names is determined by the order of
    the names and the value read for each. *)
Lemma counts_by_keys (counts : Counts) :
  NoDup (map fst counts) ->
  counts = map (fun key => (key, Counts.getOrZero key counts)) (map fst counts).
Proof.
  induction counts as [|[k v] rest IH]; intro Hnd; [reflexivity|].
  cbn [map fst] in *. inversion Hnd as [|? ? Hnotin Hnd']; subst.
  f_equal.
  - unfold Counts.getOrZero. cbn [Counts.get]. now rewrite String.eqb_refl.
  - rewrite (IH Hnd') at 1. apply map_ext_in. intros key Hin.
    f_equal. unfold Counts.getOrZero. cbn [Counts.get].
    destruct (String.eqb k key) eqn:E; [|reflexivity].
    apply String.eqb_eq in E. subst. contradiction.
Qed.

(** Incrementing from the empty object tallies the keys in first-seen
    order. *)
Lemma incrementAll_tally (keys : list string) :
  incrementAll keys [] = tally keys.
Proof.
  assert (Hkeys : map fst (incrementAll keys []) = firstSeen keys)
    by apply keys_incrementAll.
  assert (Hnd : NoDup (map fst (incrementAll keys [])))
    by (rewrite Hkeys; apply NoDup_fold_seeKey; constructor).
  rewrite (@counts_by_keys _ Hnd), Hkeys. unfold tally.
  apply map_ext. intro key. f_equal.
  unfold Counts.getOrZero. rewrite get_incrementAll.
  destruct (occurrences key keys =? 0)%N eqn:Z; cbn [Counts.get].
  - apply N.eqb_eq in Z. now rewrite Z.
  - apply N.add_0_l.
Qed.

Lemma firstSeen_In (key : string) (keys : list string) :
  In key (firstSeen keys) -> In key keys.
Proof.
  unfold firstSeen.
  assert (H : forall seen,
             In key (fold_left seeKey keys seen) ->
             In key seen \/ In key keys).
  { induction keys as [|k keys IH]; intros seen Hin; [now left|].
    cbn [fold_left] in Hin. apply IH in Hin. destruct Hin as [Hin | Hin].
    - unfold seeKey in Hin. destruct (mem k seen); [now left|].
      apply in_app_or in Hin. destruct Hin as [Hin | [<- | []]];
        [now left | right; now left].
    - right; now right. }
  intro Hin. apply H in Hin. destruct Hin as [[] | Hin]; assumption.
Qed.

(* ================================================================== *)
(** ** Dropping the sentinel properties *)

Lemma keepExtension_entry (key : string) (value : N) :
  keepExtension (key, value) = negb (isSentinel key).
Proof. reflexivity. Qed.

Lemma filter_set (key : string) (value : N) (counts : Counts) :
  filter keepExtension (Counts.set key value counts) =
  if isSentinel key then filter keepExtension counts
  else Counts.set key value (filter keepExtension counts).
Proof.
  induction counts as [|[k v] rest IH].
  - cbn [Counts.set filter]. rewrite keepExtension_entry.
    destruct (isSentinel key); reflexivity.
  - cbn [Counts.set]. destruct (String.eqb k key) eqn:E.
    + apply String.eqb_eq in E. subst k.
      cbn [filter]. rewrite !keepExtension_entry.
      destruct (isSentinel key); cbn [negb]; [reflexivity|].
      cbn [Counts.set]. now rewrite String.eqb_refl.
    + cbn [filter]. rewrite IH, !keepExtension_entry.
      destruct (isSentinel k), (isSentinel key); cbn [negb]; try reflexivity.
      cbn [Counts.set]. now rewrite E.
Qed.

Lemma get_filter (key : string) (counts : Counts) :
  isSentinel key = false ->
  Counts.get key (filter keepExtension counts) = Counts.get key counts.
Proof.
  intro Hkey. induction counts as [|[k v] rest IH]; [reflexivity|].
  cbn [filter Counts.get]. rewrite keepExtension_entry.
  destruct (String.eqb k key) eqn:E.
  - apply String.eqb_eq in E. subst k. rewrite Hkey. cbn [negb Counts.get].
    now rewrite String.eqb_refl.
  - destruct (isSentinel k); cbn [negb Counts.get]; rewrite ?E; exact IH.
Qed.

Lemma filter_increment (key : string) (counts : Counts) :
  filter keepExtension (Counts.increment key counts) =
  if isSentinel key then filter keepExtension counts
  else Counts.increment key (filter keepExtension counts).
Proof.
  unfold Counts.increment. rewrite filter_set.
  destruct (isSentinel key) eqn:E; [reflexivity|].
  unfold Counts.getOrZero. now rewrite get_filter.
Qed.

Lemma filter_incrementAll (keys : list string) :
  forall counts,
    filter keepExtension (incrementAll keys counts) =
    incrementAll (filter (fun key => negb (isSentinel key)) keys)
      (filter keepExtension counts).
Proof.
  induction keys as [|k keys IH]; intro counts; [reflexivity|].
  unfold incrementAll in *. cbn [fold_left filter].
  rewrite IH, filter_increment.
  destruct (isSentinel k); reflexivity.
Qed.

Lemma extensions_of_increments (host : Host) (fs : FileSystem)
    (directoryPath : string)
    (files : list string) :
  filter (fun key => negb (isSentinel key))
    (incrementsOf host fs directoryPath files) =
  extensionsSeen host fs directoryPath files.
Proof.
  unfold incrementsOf, extensionsSeen.
  induction files as [|file files IH]; [reflexivity|].
  cbn [flat_map]. rewrite filter_app, IH. f_equal.
  destruct (classify host fs directoryPath file) as [|extension|] eqn:E;
    try reflexivity.
  apply classify_file_shape in E. destruct E as [_ [-> | [rest ->]]];
    reflexivity.
Qed.

(** The entries [getChildren] ranks: the extensions seen, tallied in
    first-seen order. *)
Lemma extension_entries (host : Host) (fs : FileSystem) (directoryPath : string)
    (files : list string) :
  filter keepExtension
    (incrementAll (incrementsOf host fs directoryPath files)
       [("directories", 0%N); ("files", 0%N)]) =
  tally (extensionsSeen host fs directoryPath files).
Proof.
  rewrite filter_incrementAll, extensions_of_increments.
  apply incrementAll_tally.
Qed.

(* ================================================================== *)
(** ** Ranking the extensions *)

Lemma sortInsert_perm (A : Type) (compare : A -> A -> Z) (x : A)
    (l : list A) :
  Permutation (sortInsert compare x l) (x :: l).
Proof.
  induction l as [|y l IH]; cbn [sortInsert]; [reflexivity|].
  destruct (compare x y <=? 0)%Z; [reflexivity|].
  rewrite IH. apply perm_swap.
Qed.

Lemma sort_perm (A : Type) (compare : A -> A -> Z) (l : list A) :
  Permutation (sort compare l) l.
Proof.
  induction l as [|x l IH]; cbn [sort]; [reflexivity|].
  rewrite sortInsert_perm. now constructor.
Qed.

Lemma byCountDescending_le (a b : string * N) :
  (byCountDescending a b <=? 0)%Z = true <-> countAtLeast a b.
Proof.
  unfold byCountDescending, countAtLeast. rewrite Z.leb_le. lia.
Qed.

Lemma sortInsert_sorted (x : string * N) (l : Counts) :
  StronglySorted countAtLeast l ->
  StronglySorted countAtLeast (sortInsert byCountDescending x l).
Proof.
  induction l as [|y l IH]; intro Hs; cbn [sortInsert].
  - repeat constructor.
  - inversion Hs as [|? ? Hs' Hall]; subst.
    destruct (byCountDescending x y <=? 0)%Z eqn:E.
    + apply byCountDescending_le in E.
      constructor; [assumption|]. constructor; [assumption|].
      eapply Forall_impl; [|exact Hall].
      unfold countAtLeast in *. intros; lia.
    + constructor; [now apply IH|].
      eapply Permutation_Forall;
        [symmetry; apply sortInsert_perm|].
      constructor; [|assumption].
      apply Z.leb_gt in E. unfold byCountDescending in E.
      unfold countAtLeast. lia.
Qed.

Lemma sort_sorted (l : Counts) :
  StronglySorted countAtLeast (sort byCountDescending l).
Proof.
  induction l as [|x l IH]; cbn [sort]; [constructor|].
  now apply sortInsert_sorted.
Qed.

(** Inserting does not reorder entries of equal count: the new entry
    passes only entries of a larger count. *)
Lemma sortInsert_stable (n : N) (x : string * N) (l : Counts) :
  filter (hasCount n) (sortInsert byCountDescending x l) =
  filter (hasCount n) (x :: l).
Proof.
  induction l as [|y l IH]; cbn [sortInsert]; [reflexivity|].
  destruct (byCountDescending x y <=? 0)%Z eqn:E; [reflexivity|].
  apply Z.leb_gt in E. unfold byCountDescending in E.
  cbn [filter] in *. rewrite IH.
  unfold hasCount.
  destruct (snd x =? n)%N eqn:Ex, (snd y =? n)%N eqn:Ey; try reflexivity.
  apply N.eqb_eq in Ex, Ey. lia.
Qed.

Lemma sort_stable (n : N) (l : Counts) :
  filter (hasCount n) (sort byCountDescending l) = filter (hasCount n) l.
Proof.
  induction l as [|x l IH]; cbn [sort]; [reflexivity|].
  rewrite sortInsert_stable. cbn [filter]. now rewrite IH.
Qed.

Lemma sort_ranked (l : Counts) :
  RankedByCount (sort byCountDescending l) l.
Proof.
  split; [apply sort_perm|]. split; [apply sort_sorted|].
  intro n. apply sort_stable.
Qed.

(** In a ranked list, what is cut off after the first [k] entries has no
    larger count than what is kept. *)
Lemma sorted_firstn_skipn (k : nat) :
  forall l : Counts,
    StronglySorted countAtLeast l ->
    forall a b, In a (firstn k l) -> In b (skipn k l) -> countAtLeast a b.
Proof.
  induction k as [|k IH]; intros l Hs a b Ha Hb.
  - contradiction.
  - destruct l as [|x l]; [contradiction|].
    cbn [firstn skipn] in *. inversion Hs as [|? ? Hs' Hall]; subst.
    destruct Ha as [<- | Ha].
    + rewrite Forall_forall in Hall. apply Hall.
      rewrite <- (firstn_skipn k l). apply in_or_app. now right.
    + eapply IH; eauto.
Qed.

Lemma substring_all (s : string) :
  String.substring 0 (String.length s) s = s.
Proof.
  induction s as [|c s IH]; cbn; [reflexivity | now rewrite IH].
Qed.

Lemma formatExtension_dot (rest : string) (count : N) :
  formatExtension (String "." rest, count) =
  (rest ++ ": " ++ numberToString count)%string.
Proof.
  unfold formatExtension, substringFrom. cbn [fst snd String.length].
  replace (S (String.length rest) - 1) with (String.length rest) by lia.
  cbn [String.substring]. now rewrite substring_all.
Qed.

Lemma extensionsSeen_shape (host : Host) (fs : FileSystem)
    (directoryPath : string)
    (files : list string) (extension : string) :
  In extension (extensionsSeen host fs directoryPath files) ->
  exists rest, extension = String "." rest.
Proof.
  unfold extensionsSeen. rewrite in_flat_map. intros (file & _ & Hin).
  destruct (classify host fs directoryPath file) as [|e|] eqn:E;
    try contradiction.
  apply classify_file_shape in E. destruct E as [_ [-> | [rest ->]]].
  - contradiction.
  - destruct Hin as [<- | []]. now exists rest.
Qed.

Lemma tally_In (keys : list string) (entry : string * N) :
  In entry (tally keys) ->
  In (fst entry) keys /\ snd entry = occurrences (fst entry) keys.
Proof.
  unfold tally. rewrite in_map_iff. intros (key & <- & Hin).
  split; [now apply firstSeen_In | reflexivity].
Qed.

(* ================================================================== *)
(** ** The "Common types" row *)

Lemma topExtensions_keep (counts : Counts) :
  topExtensions counts =
  firstn 3 (sort byCountDescending (filter keepExtension counts)).
Proof. reflexivity. Qed.

(** C3.  For a selected directory that can be listed, rank the non-empty
    lower-cased extensions of the files among its immediate children by
    descending count, extensions of equal count in first-seen order.  The
    row list ends with the "Common types" row when at least one extension
    was seen, and the row lists the first three entries of the ranking
    (no entry left out has a larger count), each as the extension without
    its dot, a colon, a space and the count, joined with ", ". *)
Theorem common_types_row
    (host : Host) (fs : FileSystem) (this : SelectedItemProvider)
    (selection : Uri) (stats : Stats) (files : list string) :
  currentSelection this = Some selection ->
  statSync fs (fsPath selection) = Normal stats ->
  isDirectory stats = true ->
  readdirSync fs (fsPath selection) = Normal files ->
  exists ranked : Counts,
    RankedByCount ranked (tally (extensionsSeen host fs (fsPath selection) files)) /\
    List.length (firstn 3 ranked) <= 3 /\
    (forall a b,
       In a (firstn 3 ranked) -> In b (skipn 3 ranked) -> countAtLeast a b) /\
    Forall
      (fun entry =>
         exists extension,
           fst entry = String "." extension /\
           formatExtension entry =
             (extension ++ ": " ++ numberToString (snd entry))%string)
      (firstn 3 ranked) /\
    getChildren host fs this None =
      Normal
        (statRows host selection stats ++
         [infoItem
            ("Size (approx): " ++
             formatSize (sumN (map (childSize fs (fsPath selection)) files)));
          infoItem
            ("Contains: " ++ numberToString (N.of_nat (List.length files)) ++
             " items")] ++
         counterRows
           (countChildren host fs (fsPath selection) isChildDirectory files)
           (countChildren host fs (fsPath selection) isChildFile files) ++
         commonTypesRows (firstn 3 ranked)).
Proof.
  intros Hsel Hstat Hdir Hlist.
  set (entries := tally (extensionsSeen host fs (fsPath selection) files)).
  exists (sort byCountDescending entries).
  pose proof (sort_ranked entries) as Hranked.
  split; [exact Hranked|]. split; [apply firstn_le_length|].
  split; [apply sorted_firstn_skipn; apply sort_sorted|]. split.
  - apply Forall_forall. intros [key count] Hin.
    assert (Hentry : In (key, count) entries).
    { apply (Permutation_in _ (sort_perm byCountDescending entries)).
      rewrite <- (firstn_skipn 3 (sort byCountDescending entries)).
      apply in_or_app. now left. }
    apply tally_In in Hentry. destruct Hentry as [Hkey _].
    apply extensionsSeen_shape in Hkey. destruct Hkey as [rest Hkey].
    cbn [fst] in Hkey. subst key.
    exists rest. split; [reflexivity | apply formatExtension_dot].
  - pose proof (calculateDirSize_sum fs _ Hlist) as Hsize.
    destruct (countFileTypes_get host fs _ Hlist)
      as (counts & Hrun & Hdef & Hd & Hf & _).
    assert (Htop : topExtensions counts =
                   firstn 3 (sort byCountDescending entries))
      by (rewrite topExtensions_keep, Hdef, extension_entries; reflexivity).
    unfold getChildren, selectionRows, statRows, push,
      Eff.bind, Eff.tryCatch, Eff.call, Eff.modify, Eff.get.
    rewrite Hsel, Hstat, Hdir. cbn [negb].
    rewrite Hsize, Hlist, Hrun.
    rewrite (@pushCounters_rows _ _ _ _ Hd Hf), Htop.
    unfold commonTypesRows, extensionSummary, Eff.when, Eff.ret.
    destruct (firstn 3 (sort byCountDescending entries)) as [|e top];
      cbn [List.length Nat.ltb Nat.leb fst app];
      rewrite <- ?app_assoc; cbn [app]; rewrite ?app_nil_r; reflexivity.
Qed.

Lemma common_types_row_witness :
  exists ranked : Counts,
    RankedByCount ranked
      (tally (extensionsSeen Sample.host Sample.disk "/w/d"
                ["a.txt"; "b.txt"; "c.md"; "sub"])) /\
    getChildren Sample.host Sample.disk (Sample.selecting "/w/d") None =
      Normal
        (statRows Sample.host (mkUri "/w/d") (Sample.stats true 4096) ++
         [infoItem
            ("Size (approx): " ++
             formatSize (sumN (map (childSize Sample.disk "/w/d")
                                 ["a.txt"; "b.txt"; "c.md"; "sub"])));
          infoItem
            ("Contains: " ++
             numberToString (N.of_nat (List.length
                ["a.txt"; "b.txt"; "c.md"; "sub"])) ++ " items")] ++
         counterRows
           (countChildren Sample.host Sample.disk "/w/d" isChildDirectory
              ["a.txt"; "b.txt"; "c.md"; "sub"])
           (countChildren Sample.host Sample.disk "/w/d" isChildFile
              ["a.txt"; "b.txt"; "c.md"; "sub"]) ++
         commonTypesRows (firstn 3 ranked)).
Proof.
  destruct (@common_types_row Sample.host Sample.disk
              (Sample.selecting "/w/d") (mkUri "/w/d")
              (Sample.stats true 4096) ["a.txt"; "b.txt"; "c.md"; "sub"]
              eq_refl eq_refl eq_refl eq_refl)
    as (ranked & Hranked & _ & _ & _ & Hrows).
  exists ranked. split; assumption.
Defined.

(** The directory of the specification's example: children [a.txt],
    [b.txt], [c.md] and [sub/]. *)
Example common_types_sample :
  labelsOf (getChildren Sample.host Sample.disk (Sample.selecting "/w/d") None)
  = Some ["Directory: d"; "Created: 1/1/1970, 12:00:00 AM";
          "Modified: 1/1/1970, 12:00:00 AM"; "Permissions: 644";
          "Size (approx): 4.1 KB"; "Contains: 4 items"; "Subdirectories: 1";
          "Files: 3"; "Common types: txt: 2, md: 1"].
Proof. vm_compute. reflexivity. Qed.

(** Ties keep first-seen order, upper-case extensions are folded, names
    without extension and unreadable children are left out, and only
    three extensions are listed. *)
Example common_types_ties :
  labelsOf (getChildren Sample.host Sample.mixedDisk (Sample.selecting "/t")
              None)
  = Some ["Directory: t"; "Created: 1/1/1970, 12:00:00 AM";
          "Modified: 1/1/1970, 12:00:00 AM"; "Permissions: 644";
          "Size (approx): 800 bytes"; "Contains: 9 items"; "Files: 8";
          "Common types: txt: 2, js: 2, md: 1"].
Proof. vm_compute. reflexivity. Qed.

(** With the case tables of the runtime, accented extensions fold like
    any other: [a.E'], [b.e'], [c.txt], [d.TXT] (E' the letter U+00C9,
    e' the letter U+00E9) give two buckets of two. *)
Example common_types_accented :
  countFileTypes MoreSamples.latinHost MoreSamples.accentedDisk "/accents" =
    Normal [("directories", 0%N); ("files", 4%N);
            (("." ++ MoreSamples.smallEAcute)%string, 2%N); (".txt", 2%N)] /\
  labelsOf (getChildren MoreSamples.latinHost MoreSamples.accentedDisk
              (Sample.selecting "/accents") None)
  = Some ["Directory: accents"; "Created: 1/1/1970, 12:00:00 AM";
          "Modified: 1/1/1970, 12:00:00 AM"; "Permissions: 644";
          "Size (approx): 4 bytes"; "Contains: 4 items"; "Files: 4";
          ("Common types: " ++ MoreSamples.smallEAcute ++ ": 2, txt: 2")%string].
Proof. vm_compute. auto. Qed.

(* ================================================================== *)
(** ** The row list, branch by branch *)

Lemma selected_file_rows
    (host : Host) (fs : FileSystem) (this : SelectedItemProvider)
    (selection : Uri) (stats : Stats) :
  currentSelection this = Some selection ->
  statSync fs (fsPath selection) = Normal stats ->
  isDirectory stats = false ->
  getChildren host fs this None = Normal (fileRows host selection stats).
Proof.
  intros Hsel Hstat Hfile.
  unfold getChildren, selectionRows, fileRows, statRows, push,
    Eff.bind, Eff.tryCatch, Eff.call, Eff.modify, Eff.get, Eff.when, Eff.ret.
  rewrite Hsel, Hstat, Hfile. cbn [negb].
  destruct (truthy (Path.extname (Path.basename (fsPath selection))));
    reflexivity.
Qed.

Lemma selected_directory_rows
    (host : Host) (fs : FileSystem) (this : SelectedItemProvider)
    (selection : Uri) (stats : Stats) :
  currentSelection this = Some selection ->
  statSync fs (fsPath selection) = Normal stats ->
  isDirectory stats = true ->
  getChildren host fs this None =
    Normal (directoryRows host fs selection stats).
Proof.
  intros Hsel Hstat Hdir. unfold directoryRows.
  destruct (readdirSync fs (fsPath selection)) as [files|error] eqn:Hlist.
  - pose proof (calculateDirSize_sum fs _ Hlist) as Hsize.
    destruct (countFileTypes_get host fs _ Hlist)
      as (counts & Hrun & Hdef & Hd & Hf & _).
    assert (Htop : topExtensions counts =
                   firstn 3 (sort byCountDescending
                     (tally (extensionsSeen host fs (fsPath selection) files))))
      by (rewrite topExtensions_keep, Hdef, extension_entries; reflexivity).
    unfold getChildren, selectionRows, statRows, push,
      Eff.bind, Eff.tryCatch, Eff.call, Eff.modify, Eff.get.
    rewrite Hsel, Hstat, Hdir. cbn [negb].
    rewrite Hsize, Hlist, Hrun.
    rewrite (@pushCounters_rows _ _ _ _ Hd Hf), Htop.
    unfold commonTypesRows, extensionSummary, Eff.when, Eff.ret.
    destruct (firstn 3 _) as [|e top];
      cbn [List.length Nat.ltb Nat.leb fst app];
      rewrite <- ?app_assoc; cbn [app]; rewrite ?app_nil_r; reflexivity.
  - pose proof (calculateDirSize_unreadable fs _ Hlist) as Hsize.
    unfold getChildren, selectionRows, statRows, push,
      Eff.bind, Eff.tryCatch, Eff.call, Eff.modify, Eff.get.
    rewrite Hsel, Hstat, Hdir. cbn [negb].
    rewrite Hsize, Hlist. reflexivity.
Qed.

Lemma root_rows
    (host : Host) (fs : FileSystem) (this : SelectedItemProvider)
    (root : string) :
  currentSelection this = None ->
  workspaceRoot this = Some root ->
  truthy root = true ->
  getChildren host fs this None = Normal (rootRows host fs root).
Proof.
  intros Hsel Hroot Htruthy. unfold rootRows.
  destruct (readdirSync fs root) as [files|error] eqn:Hlist;
    unfold getChildren, workspaceRows, truthyOpt;
    rewrite Hsel, Hroot, Htruthy.
  - destruct (countFileTypes_get host fs root Hlist)
      as (counts & Hrun & _ & Hd & Hf & _).
    unfold Eff.bind at 1.
    unfold Eff.bind at 1. unfold push at 1. unfold Eff.modify at 1.
    unfold Eff.tryCatch, Eff.bind, Eff.call, Eff.get.
    rewrite Hlist. unfold push at 1. unfold Eff.modify at 1.
    rewrite Hrun, (@pushCounters_rows _ _ _ _ Hd Hf). reflexivity.
  - unfold Eff.bind, Eff.tryCatch, Eff.call, Eff.get, push, Eff.modify.
    rewrite Hlist. reflexivity.
Qed.

(** The statements of [getChildren] compute [rowsOf]. *)
Lemma getChildren_rowsOf
    (host : Host) (fs : FileSystem) (this : SelectedItemProvider) :
  getChildren host fs this None = Normal (rowsOf host fs this).
Proof.
  unfold rowsOf.
  destruct (currentSelection this) as [selection|] eqn:Hsel.
  - destruct (statSync fs (fsPath selection)) as [stats|error] eqn:Hstat.
    + destruct (isDirectory stats) eqn:Hdir.
      * now apply selected_directory_rows.
      * now apply selected_file_rows.
    + unfold getChildren, selectionRows, Eff.bind, Eff.tryCatch, Eff.call.
      rewrite Hsel, Hstat. reflexivity.
  - destruct (workspaceRoot this) as [root|] eqn:Hroot.
    + destruct (truthy root) eqn:Htruthy.
      * now apply root_rows.
      * unfold getChildren, truthyOpt. rewrite Hsel, Hroot, Htruthy.
        reflexivity.
    + unfold getChildren, truthyOpt. rewrite Hsel, Hroot. reflexivity.
Qed.

Lemma counterRows_length (directories files : N) :
  List.length (counterRows directories files) <= 2.
Proof.
  unfold counterRows.
  destruct (0 <? directories)%N, (0 <? files)%N; cbn; lia.
Qed.

Lemma commonTypesRows_length (top : Counts) :
  List.length (commonTypesRows top) <= 1.
Proof. destruct top; cbn; lia. Qed.

(** X1.  At the top level [getChildren] never throws, whatever the
    selection, the workspace root and the file system are, and it returns
    at least one row and at most nine. *)
Theorem getChildren_never_throws
    (host : Host) (fs : FileSystem) (this : SelectedItemProvider) :
  exists rows,
    getChildren host fs this None = Normal rows /\
    1 <= List.length rows <= 9.
Proof.
  exists (rowsOf host fs this). split; [apply getChildren_rowsOf|].
  unfold rowsOf.
  destruct (currentSelection this) as [selection|].
  - destruct (statSync fs (fsPath selection)) as [stats|error];
      [|cbn; lia].
    destruct (isDirectory stats).
    + unfold directoryRows, statRows.
      destruct (readdirSync fs (fsPath selection)) as [files|error];
        [|cbn; lia].
      rewrite !length_app.
      pose proof (counterRows_length
        (countChildren host fs (fsPath selection) isChildDirectory files)
        (countChildren host fs (fsPath selection) isChildFile files)).
      pose proof (commonTypesRows_length
        (firstn 3 (sort byCountDescending
           (tally (extensionsSeen host fs (fsPath selection) files))))).
      cbn [List.length]. lia.
    + unfold fileRows, statRows. rewrite !length_app.
      destruct (truthy _); cbn [List.length]; lia.
  - destruct (workspaceRoot this) as [root|]; [|cbn; lia].
    destruct (truthy root); [|cbn; lia].
    unfold rootRows. destruct (readdirSync fs root) as [files|error];
      [|cbn; lia].
    pose proof (counterRows_length
      (countChildren host fs root isChildDirectory files)
      (countChildren host fs root isChildFile files)).
    cbn [List.length]. lia.
Qed.

Lemma infoItem_leaf (text : string) :
  collapsibleState (infoItem text) = CollapsibleNone /\
  isPlainRow (infoItem text).
Proof. repeat split. Qed.

Lemma counterRows_leaves (directories files : N) :
  Forall (fun item => collapsibleState item = CollapsibleNone /\
                      isPlainRow item)
    (counterRows directories files).
Proof.
  unfold counterRows.
  destruct (0 <? directories)%N, (0 <? files)%N; cbn [app];
    repeat constructor.
Qed.

Lemma commonTypesRows_leaves (top : Counts) :
  Forall (fun item => collapsibleState item = CollapsibleNone /\
                      isPlainRow item)
    (commonTypesRows top).
Proof. destruct top; cbn; repeat constructor. Qed.

Lemma rowsOf_shape (host : Host) (fs : FileSystem)
    (this : SelectedItemProvider) :
  exists first rest,
    rowsOf host fs this = first :: rest /\
    collapsibleState first = CollapsibleNone /\
    Forall (fun item => collapsibleState item = CollapsibleNone /\
                        isPlainRow item) rest.
Proof.
  unfold rowsOf.
  destruct (currentSelection this) as [selection|].
  - destruct (statSync fs (fsPath selection)) as [stats|error].
    + destruct (isDirectory stats).
      * unfold directoryRows, statRows. cbn [app].
        eexists _, _. split; [reflexivity|]. split; [reflexivity|].
        do 3 (constructor; [apply infoItem_leaf|]).
        destruct (readdirSync fs (fsPath selection)) as [files|error].
        -- cbn [app]. do 2 (constructor; [apply infoItem_leaf|]).
           apply Forall_app. split;
             [apply counterRows_leaves | apply commonTypesRows_leaves].
        -- repeat constructor.
      * unfold fileRows, statRows. cbn [app].
        eexists _, _. split; [reflexivity|]. split; [reflexivity|].
        do 4 (constructor; [apply infoItem_leaf|]).
        destruct (truthy _); repeat constructor.
    + eexists _, _. split; [reflexivity|]. repeat constructor.
  - destruct (workspaceRoot this) as [root|].
    + destruct (truthy root).
      * unfold rootRows. eexists _, _. split; [reflexivity|].
        split; [reflexivity|].
        destruct (readdirSync fs root) as [files|error]; [|constructor].
        constructor; [apply infoItem_leaf | apply counterRows_leaves].
      * eexists _, _. split; [reflexivity|]. repeat constructor.
    + eexists _, _. split; [reflexivity|]. repeat constructor.
Qed.

(** X2.  The tree is flat and only its first row points at a path: every
    row of the top level is non-collapsible and has no children, and every
    row after the first carries no path, tooltip, description or context
    value. *)
Theorem getChildren_rows_are_leaves
    (host : Host) (fs : FileSystem) (this : SelectedItemProvider)
    (rows : list DirectoryItem) :
  getChildren host fs this None = Normal rows ->
  Forall (fun item =>
            collapsibleState item = CollapsibleNone /\
            getChildren host fs this (Some item) = Normal []) rows /\
  Forall isPlainRow (tl rows).
Proof.
  rewrite getChildren_rowsOf. intro H. injection H as <-.
  destruct (rowsOf_shape host fs this) as (first & rest & -> & Hfirst & Hrest).
  cbn [tl]. split.
  - constructor; [split; [assumption | reflexivity]|].
    eapply Forall_impl; [|exact Hrest]. intros item [Hleaf _].
    split; [assumption | reflexivity].
  - eapply Forall_impl; [|exact Hrest]. now intros item [_ Hplain].
Qed.

Lemma getChildren_rows_are_leaves_witness :
  Forall isPlainRow
    (tl (statRows Sample.host (mkUri "/w/d/a.txt") (Sample.stats false 10) ++
         [infoItem "Size: 10 bytes"; infoItem "Type: txt"])).
Proof.
  apply (@getChildren_rows_are_leaves Sample.host Sample.disk
           (Sample.selecting "/w/d/a.txt") _ eq_refl).
Defined.

(** X3.  For a selected regular file the rows are the four opening rows,
    the row "Size: ..." with the formatted size, and, when the name has an
    extension, the row "Type: ..." with that extension as written (the
    case is kept), without its dot.  Nothing but the stat of the selected
    path is read: the rows are the same on every file system that gives
    the same stat for it. *)
Theorem file_selection_rows
    (host : Host) (fs : FileSystem) (this : SelectedItemProvider)
    (selection : Uri) (stats : Stats) :
  currentSelection this = Some selection ->
  statSync fs (fsPath selection) = Normal stats ->
  isDirectory stats = false ->
  getChildren host fs this None =
    Normal
      (statRows host selection stats ++
       [infoItem ("Size: " ++ formatSize (size stats))] ++
       match Path.extname (Path.basename (fsPath selection)) with
       | EmptyString => []
       | String _ extension => [infoItem ("Type: " ++ extension)]
       end) /\
  (forall fs' : FileSystem,
     statSync fs' (fsPath selection) = statSync fs (fsPath selection) ->
     getChildren host fs' this None = getChildren host fs this None).
Proof.
  intros Hsel Hstat Hfile.
  assert (Hrows : forall fs0,
            statSync fs0 (fsPath selection) = Normal stats ->
            getChildren host fs0 this None =
            Normal
              (statRows host selection stats ++
               [infoItem ("Size: " ++ formatSize (size stats))] ++
               match Path.extname (Path.basename (fsPath selection)) with
               | EmptyString => []
               | String _ extension => [infoItem ("Type: " ++ extension)]
               end)).
  { intros fs0 Hstat0.
    rewrite (selected_file_rows host fs0 this Hsel Hstat0 Hfile).
    unfold fileRows. do 3 f_equal.
    destruct (Path.extname (Path.basename (fsPath selection)))
      as [|c extension]; [reflexivity|].
    cbn [truthy]. unfold substringFrom. cbn [String.length].
    replace (S (String.length extension) - 1) with (String.length extension)
      by lia.
    cbn [String.substring]. now rewrite substring_all. }
  split; [now apply Hrows|].
  intros fs' Hsame. rewrite (Hrows fs Hstat).
  apply Hrows. now rewrite Hsame.
Qed.

Lemma file_selection_rows_witness :
  getChildren Sample.host MoreSamples.disk
    (Sample.selecting "/e.d/Notes.TXT") None =
    Normal
      (statRows Sample.host (mkUri "/e.d/Notes.TXT") (Sample.stats false 9) ++
       [infoItem ("Size: " ++ formatSize 9)] ++
       match Path.extname (Path.basename "/e.d/Notes.TXT") with
       | EmptyString => []
       | String _ extension => [infoItem ("Type: " ++ extension)]
       end).
Proof.
  apply (proj1 (@file_selection_rows Sample.host MoreSamples.disk
                  (Sample.selecting "/e.d/Notes.TXT") (mkUri "/e.d/Notes.TXT")
                  (Sample.stats false 9) eq_refl eq_refl eq_refl)).
Defined.

(** The extension of a selected file keeps its case; a dot in a directory
    name is no extension of the file. *)
Example file_selection_samples :
  labelsOf (getChildren Sample.host MoreSamples.disk
              (Sample.selecting "/e.d/Notes.TXT") None) =
    Some ["File: Notes.TXT"; "Created: 1/1/1970, 12:00:00 AM";
          "Modified: 1/1/1970, 12:00:00 AM"; "Permissions: 644";
          "Size: 9 bytes"; "Type: TXT"] /\
  labelsOf (getChildren Sample.host MoreSamples.disk
              (Sample.selecting "/e.d/README") None) =
    Some ["File: README"; "Created: 1/1/1970, 12:00:00 AM";
          "Modified: 1/1/1970, 12:00:00 AM"; "Permissions: 644";
          "Size: 7 bytes"].
Proof. vm_compute. auto. Qed.

Lemma countChildren_none (host : Host) (fs : FileSystem)
    (directoryPath : string)
    (p : ChildKind -> bool) (files : list string) :
  (forall file, In file files -> p (classify host fs directoryPath file) = false) ->
  countChildren host fs directoryPath p files = 0%N.
Proof.
  intro Hnone. induction files as [|file files IH]; [reflexivity|].
  rewrite countChildren_cons, Hnone by now left.
  rewrite IH; [reflexivity|]. intros f Hin. apply Hnone. now right.
Qed.

(** X4.  For a selected directory whose listing can be read and in which
    no child can be stat-ed (an empty directory among them), the rows are
    the four opening rows, "Size (approx): 0 bytes" and
    "Contains: n items" for the n names listed: no counter row and no
    "Common types" row. *)
Theorem directory_without_readable_children
    (host : Host) (fs : FileSystem) (this : SelectedItemProvider)
    (selection : Uri) (stats : Stats) (files : list string) :
  currentSelection this = Some selection ->
  statSync fs (fsPath selection) = Normal stats ->
  isDirectory stats = true ->
  readdirSync fs (fsPath selection) = Normal files ->
  (forall file, In file files ->
     exists error,
       statSync fs (Path.join (fsPath selection) file) = Throw error) ->
  getChildren host fs this None =
    Normal
      (statRows host selection stats ++
       [infoItem "Size (approx): 0 bytes";
        infoItem ("Contains: " ++ numberToString (N.of_nat (List.length files))
                  ++ " items")]).
Proof.
  intros Hsel Hstat Hdir Hlist Hall.
  rewrite (selected_directory_rows host fs this Hsel Hstat Hdir).
  unfold directoryRows. rewrite Hlist.
  assert (Hkind : forall file, In file files ->
            classify host fs (fsPath selection) file = ChildUnreadable).
  { intros file Hin. destruct (Hall file Hin) as [error He].
    unfold classify. now rewrite He. }
  rewrite !countChildren_none
    by (intros file Hin; now rewrite (Hkind file Hin)).
  assert (Hexts : extensionsSeen host fs (fsPath selection) files = []).
  { unfold extensionsSeen. clear - Hkind.
    induction files as [|file files IH]; [reflexivity|].
    cbn [flat_map]. rewrite Hkind by now left.
    apply IH. intros f Hin. apply Hkind. now right. }
  assert (Hsize : sumN (map (childSize fs (fsPath selection)) files) = 0%N).
  { clear - Hall. induction files as [|file files IH]; [reflexivity|].
    cbn [map sumN fold_right]. fold (sumN (map (childSize fs (fsPath selection)) files)).
    rewrite IH by (intros f Hin; apply Hall; now right).
    destruct (Hall file (or_introl eq_refl)) as [error He].
    unfold childSize. now rewrite He. }
  rewrite Hexts, Hsize. reflexivity.
Qed.

Lemma directory_without_readable_children_witness :
  (forall file, In file ["gone.txt"; "lost"] ->
     exists error,
       statSync MoreSamples.ghostDisk (Path.join "/g" file) = Throw error) /\
  getChildren Sample.host MoreSamples.ghostDisk (Sample.selecting "/g") None =
    Normal
      (statRows Sample.host (mkUri "/g") (Sample.stats true 4096) ++
       [infoItem "Size (approx): 0 bytes";
        infoItem ("Contains: " ++
                  numberToString (N.of_nat (List.length ["gone.txt"; "lost"]))
                  ++ " items")]).
Proof.
  assert (Hall : forall file, In file ["gone.txt"; "lost"] ->
            exists error,
              statSync MoreSamples.ghostDisk (Path.join "/g" file)
              = Throw error).
  { intros file [<- | [<- | []]]; exists ENOENT; reflexivity. }
  split; [exact Hall|].
  exact (@directory_without_readable_children Sample.host
           MoreSamples.ghostDisk (Sample.selecting "/g") (mkUri "/g")
           (Sample.stats true 4096) ["gone.txt"; "lost"]
           eq_refl eq_refl eq_refl eq_refl Hall).
Defined.

(** Two names listed, none readable: the count row stands alone. *)
Example directory_of_dangling_names :
  labelsOf (getChildren Sample.host MoreSamples.ghostDisk
              (Sample.selecting "/g") None) =
    Some ["Directory: g"; "Created: 1/1/1970, 12:00:00 AM";
          "Modified: 1/1/1970, 12:00:00 AM"; "Permissions: 644";
          "Size (approx): 0 bytes"; "Contains: 2 items"].
Proof. vm_compute. reflexivity. Qed.

(* ================================================================== *)
(** ** Sessions: activation followed by events *)

(** A listener leaves the provider alone or refreshes it with a
    selection; it never throws. *)
Lemma dispatch_step (host : Host) (fs : FileSystem) (event : Event)
    (this : SelectedItemProvider) :
  dispatch host fs event this = (Normal tt, this) \/
  exists uri, dispatch host fs event this = (Normal tt, refresh (Some uri) this).
Proof.
  destruct event as [editor | copyFilePath clipboard | fileUri | ]; cbn.
  - destruct editor as [uri|]; [right; now exists uri | now left].
  - unfold onDidChangeWindowState, onClipboardText, Eff.when, Eff.tryCatch,
      Eff.bind, Eff.call, Eff.modify, Eff.ret.
    destruct copyFilePath as [[]|e]; [|now left].
    destruct (truthy clipboard &&
              (startsWith clipboard "/" || includes clipboard ":/"));
      [|now left].
    destruct (UriFile host clipboard) as [uri|e]; [|now left].
    destruct (existsSync fs (fsPath uri)); [right; now exists uri | now left].
  - unfold selectPath. destruct fileUri as [[|uri picked]|]; cbn;
      [now left | right; now exists uri | now left].
  - now left.
Qed.

Lemma dispatchAll_cons (host : Host) (fs : FileSystem) (event : Event)
    (events : list Event) (this : SelectedItemProvider) :
  dispatchAll host fs (event :: events) this =
  dispatchAll host fs events (snd (dispatch host fs event this)).
Proof.
  unfold dispatchAll. cbn [Eff.forOf]. unfold Eff.bind.
  destruct (dispatch_step host fs event this) as [H | [uri H]];
    rewrite H; reflexivity.
Qed.

(** X5.  No event clears the selection: once a selection is held, one is
    held after every sequence of events. *)
Theorem selection_is_never_cleared
    (host : Host) (fs : FileSystem) (events : list Event)
    (this : SelectedItemProvider) :
  currentSelection this <> None ->
  currentSelection (snd (dispatchAll host fs events this)) <> None.
Proof.
  revert this. induction events as [|event events IH]; intros this Hheld.
  - exact Hheld.
  - rewrite dispatchAll_cons. apply IH.
    destruct (dispatch_step host fs event this) as [H | [uri H]];
      rewrite H; cbn; [assumption | discriminate].
Qed.

Lemma selection_is_never_cleared_witness :
  currentSelection
    (snd (dispatchAll Sample.host Sample.disk MoreSamples.session
            (activate MoreSamples.workbench))) <> None.
Proof.
  apply (@selection_is_never_cleared Sample.host Sample.disk
           MoreSamples.session (activate MoreSamples.workbench)).
  cbn. discriminate.
Defined.

(** X6.  Events never throw out of the listeners, and none of them
    changes the workspace root the provider was built with. *)
Theorem events_keep_workspace_root
    (host : Host) (fs : FileSystem) (events : list Event)
    (this : SelectedItemProvider) :
  fst (dispatchAll host fs events this) = Normal tt /\
  workspaceRoot (snd (dispatchAll host fs events this)) = workspaceRoot this.
Proof.
  revert this. induction events as [|event events IH]; intro this.
  - split; reflexivity.
  - rewrite dispatchAll_cons.
    destruct (IH (snd (dispatch host fs event this))) as [Hok Hroot].
    split; [exact Hok|]. rewrite Hroot.
    destruct (dispatch_step host fs event this) as [H | [uri H]];
      rewrite H; reflexivity.
Qed.

(** X7.  The view hears of every change: each event fires the change
    notification at most once, and a sequence of events that fires none
    leaves the provider exactly as it was. *)
Theorem no_change_without_notification
    (host : Host) (fs : FileSystem) (events : list Event)
    (this : SelectedItemProvider) :
  changesFired this <=
    changesFired (snd (dispatchAll host fs events this)) <=
    changesFired this + List.length events /\
  (changesFired (snd (dispatchAll host fs events this)) = changesFired this ->
   snd (dispatchAll host fs events this) = this).
Proof.
  revert this. induction events as [|event events IH]; intro this.
  - cbn. split; [lia | reflexivity].
  - rewrite dispatchAll_cons.
    destruct (IH (snd (dispatch host fs event this))) as [Hbound Hsame].
    destruct (dispatch_step host fs event this) as [H | [uri H]];
      rewrite H in *; cbn [snd refresh changesFired List.length] in *.
    + split; [lia | exact Hsame].
    + split; [lia | intro Heq; lia].
Qed.

Lemma no_change_without_notification_witness :
  changesFired
    (snd (dispatchAll Sample.host Sample.disk
            [ActiveTextEditorChanged None;
             WindowStateChanged (Normal tt) "hello world";
             SelectPathAnswered (Some [])]
            (activate MoreSamples.workbench))) =
  changesFired (activate MoreSamples.workbench) /\
  snd (dispatchAll Sample.host Sample.disk
         [ActiveTextEditorChanged None;
          WindowStateChanged (Normal tt) "hello world";
          SelectPathAnswered (Some [])]
         (activate MoreSamples.workbench)) =
  activate MoreSamples.workbench.
Proof.
  assert (H : changesFired
                (snd (dispatchAll Sample.host Sample.disk
                        [ActiveTextEditorChanged None;
                         WindowStateChanged (Normal tt) "hello world";
                         SelectPathAnswered (Some [])]
                        (activate MoreSamples.workbench))) =
              changesFired (activate MoreSamples.workbench))
    by reflexivity.
  split; [exact H|].
  exact (proj2 (no_change_without_notification Sample.host Sample.disk
                  [ActiveTextEditorChanged None;
                   WindowStateChanged (Normal tt) "hello world";
                   SelectPathAnswered (Some [])]
                  (activate MoreSamples.workbench)) H).
Defined.

(** X8.  Right after activation.  With an active editor, the provider
    holds its document as the selection, one notification has fired, and
    the rows are those of that document: file rows, directory rows or the
    error row, by its stat.  Without one, no notification has fired and
    the rows are those of the first workspace folder when its path is not
    empty, whatever folders follow it, and the single placeholder row
    when there is no folder (undefined or an empty array) or the first
    path is empty. *)
Theorem activate_initial_view
    (host : Host) (fs : FileSystem) (workbench : Workbench) :
  (forall uri,
     activeTextEditor workbench = Some uri ->
     selectionState (activate workbench) = HasSelection uri /\
     changesFired (activate workbench) = 1 /\
     getChildren host fs (activate workbench) None =
       Normal
         match statSync fs (fsPath uri) with
         | Normal stats =>
             if isDirectory stats then directoryRows host fs uri stats
             else fileRows host uri stats
         | Throw _ => [infoItem "Error reading file information"]
         end) /\
  (activeTextEditor workbench = None ->
   changesFired (activate workbench) = 0 /\
   getChildren host fs (activate workbench) None =
     Normal
       match workspaceFolders workbench with
       | Some (first :: _) =>
           if truthy (fsPath first) then rootRows host fs (fsPath first)
           else [infoItem "No workspace or selection"]
       | Some [] => [infoItem "No workspace or selection"]
       | None => [infoItem "No workspace or selection"]
       end).
Proof.
  split.
  - intros uri Heditor. rewrite getChildren_rowsOf.
    unfold activate, rowsOf. rewrite Heditor.
    split; [reflexivity|]. split; reflexivity.
  - intro Hnone. rewrite getChildren_rowsOf.
    unfold activate, rowsOf. rewrite Hnone.
    split; [reflexivity|].
    destruct (workspaceFolders workbench) as [[|first others]|];
      reflexivity.
Qed.

Lemma activate_initial_view_witness :
  selectionState (activate MoreSamples.workbench) =
    HasSelection (mkUri "/w/d/a.txt") /\
  changesFired (activate MoreSamples.workbench) = 1 /\
  getChildren Sample.host Sample.disk (activate MoreSamples.workbench) None =
    Normal
      match statSync Sample.disk (fsPath (mkUri "/w/d/a.txt")) with
      | Normal stats =>
          if isDirectory stats
          then directoryRows Sample.host Sample.disk (mkUri "/w/d/a.txt") stats
          else fileRows Sample.host (mkUri "/w/d/a.txt") stats
      | Throw _ => [infoItem "Error reading file information"]
      end.
Proof.
  apply (proj1 (activate_initial_view Sample.host Sample.disk
                  MoreSamples.workbench) (mkUri "/w/d/a.txt") eq_refl).
Defined.

(** The view right after activation, by its labels: with an editor on
    [a.txt]; with folders only; with an empty first folder path. *)
Example activation_samples :
  labelsOf (getChildren Sample.host Sample.disk
              (activate MoreSamples.workbench) None) =
    Some ["File: a.txt"; "Created: 1/1/1970, 12:00:00 AM";
          "Modified: 1/1/1970, 12:00:00 AM"; "Permissions: 644";
          "Size: 10 bytes"; "Type: txt"] /\
  labelsOf (getChildren Sample.host Sample.disk
              (activate (mkWorkbench (Some [mkUri "/w/d"; mkUri "/e"]) None))
              None) =
    Some ["Workspace: d"; "Root contains: 4 items"; "Subdirectories: 1";
          "Files: 3"] /\
  labelsOf (getChildren Sample.host Sample.disk
              (activate (mkWorkbench (Some [mkUri ""; mkUri "/w/d"]) None))
              None) =
    Some ["No workspace or selection"].
Proof. vm_compute. auto. Qed.

(* ================================================================== *)
(** ** More on the counting object *)

Lemma bucket_is_no_counter (host : Host) (fs : FileSystem)
    (directoryPath file : string)
    (extension : string) :
  classify host fs directoryPath file = ChildFile extension ->
  isCounter (bucketOf extension) = false /\
  String.eqb (bucketOf extension) "error" = false.
Proof.
  intro E. apply classify_file_shape in E. destruct E as [_ Hshape].
  destruct (bucketOf_shape Hshape) as [-> | [rest [-> _]]]; split; reflexivity.
Qed.

(** X9.  [countFileTypes] never throws.  It returns the object
    [{ error: 1 }] exactly when the directory cannot be listed; for a
    directory that can be listed the result has both counters and no
    property "error", whatever the children are called. *)
Theorem countFileTypes_error_marks_unreadable
    (host : Host) (fs : FileSystem) (directoryPath : string) :
  (forall error,
     readdirSync fs directoryPath = Throw error ->
     countFileTypes host fs directoryPath = Normal [("error", 1%N)]) /\
  (forall files,
     readdirSync fs directoryPath = Normal files ->
     exists counts directories regular,
       countFileTypes host fs directoryPath = Normal counts /\
       Counts.get "directories" counts = Some directories /\
       Counts.get "files" counts = Some regular /\
       Counts.get "error" counts = None).
Proof.
  split.
  - intros error Hlist. unfold countFileTypes. now rewrite Hlist.
  - intros files Hlist.
    destruct (countFileTypes_get host fs directoryPath Hlist)
      as (counts & Hrun & _ & Hd & Hf & Hkeys).
    exists counts. eexists _, _. repeat (split; [eassumption|]).
    rewrite Hkeys by discriminate.
    rewrite countChildren_none; [reflexivity|].
    intros file _.
    destruct (classify host fs directoryPath file) as [|extension|] eqn:E;
      try reflexivity.
    cbn [isFileInBucket]. now apply bucket_is_no_counter in E.
Qed.

Lemma countFileTypes_error_marks_unreadable_witness :
  countFileTypes Sample.host Sample.lockedDisk "/locked" = Normal [("error", 1%N)] /\
  exists counts directories regular,
    countFileTypes Sample.host Sample.disk "/w/d" = Normal counts /\
    Counts.get "directories" counts = Some directories /\
    Counts.get "files" counts = Some regular /\
    Counts.get "error" counts = None.
Proof.
  split.
  - apply (proj1 (countFileTypes_error_marks_unreadable Sample.host Sample.lockedDisk
                    "/locked") EACCES eq_refl).
  - apply (proj2 (countFileTypes_error_marks_unreadable Sample.host Sample.disk "/w/d")
             ["a.txt"; "b.txt"; "c.md"; "sub"] eq_refl).
Defined.









Lemma countChildren_le_length (host : Host) (fs : FileSystem)
    (directoryPath : string)
    (p : ChildKind -> bool) (files : list string) :
  (countChildren host fs directoryPath p files <= N.of_nat (List.length files))%N.
Proof.
  induction files as [|file files IH]; [cbn; lia|].
  rewrite countChildren_cons. cbn [List.length]. rewrite Nat2N.inj_succ.
  destruct (p (classify host fs directoryPath file)); lia.
Qed.

Lemma readable_children_split (host : Host) (fs : FileSystem)
    (directoryPath : string)
    (files : list string) :
  (countChildren host fs directoryPath isChildDirectory files +
   countChildren host fs directoryPath isChildFile files =
   countChildren host fs directoryPath isChildReadable files)%N.
Proof.
  induction files as [|file files IH]; [reflexivity|].
  rewrite !countChildren_cons.
  destruct (classify host fs directoryPath file);
    cbn [isChildDirectory isChildFile isChildReadable]; lia.
Qed.

(** X11.  The two counters add up to the number of children that could be
    stat-ed, so "Subdirectories" plus "Files" never exceeds the
    "Contains" count, and falls short of it by the children [statSync]
    throws on. *)
Theorem counters_cover_readable_children
    (host : Host) (fs : FileSystem) (directoryPath : string) (files : list string) :
  readdirSync fs directoryPath = Normal files ->
  exists counts directories regular,
    countFileTypes host fs directoryPath = Normal counts /\
    Counts.get "directories" counts = Some directories /\
    Counts.get "files" counts = Some regular /\
    (directories + regular =
     countChildren host fs directoryPath isChildReadable files)%N /\
    (directories + regular +
     countChildren host fs directoryPath (fun k => negb (isChildReadable k)) files
     = N.of_nat (List.length files))%N.
Proof.
  intro Hlist.
  destruct (countFileTypes_get host fs directoryPath Hlist)
    as (counts & Hrun & _ & Hd & Hf & _).
  exists counts. eexists _, _. repeat (split; [eassumption|]).
  split; [apply readable_children_split|].
  rewrite readable_children_split. clear.
  induction files as [|file files IH]; [reflexivity|].
  rewrite !countChildren_cons. cbn [List.length]. rewrite Nat2N.inj_succ.
  destruct (isChildReadable (classify host fs directoryPath file)); cbn [negb];
    lia.
Qed.

Lemma counters_cover_readable_children_witness :
  exists counts directories regular,
    countFileTypes Sample.host Sample.mixedDisk "/t" = Normal counts /\
    Counts.get "directories" counts = Some directories /\
    Counts.get "files" counts = Some regular /\
    (directories + regular =
     countChildren Sample.host Sample.mixedDisk "/t" isChildReadable Sample.mixedListing)%N
    /\
    (directories + regular +
     countChildren Sample.host Sample.mixedDisk "/t" (fun k => negb (isChildReadable k))
       Sample.mixedListing
     = N.of_nat (List.length Sample.mixedListing))%N.
Proof.
  apply (@counters_cover_readable_children Sample.host Sample.mixedDisk "/t"
           Sample.mixedListing eq_refl).
Defined.

(* ================================================================== *)
(** ** The order of the listing *)

Lemma occurrences_perm (key : string) (l l' : list string) :
  Permutation l l' -> occurrences key l = occurrences key l'.
Proof.
  intro Hperm. induction Hperm as [|x l l' _ IH|x y l|l l' l'' _ IH1 _ IH2].
  - reflexivity.
  - now rewrite !occurrences_cons, IH.
  - rewrite !occurrences_cons. lia.
  - congruence.
Qed.

Lemma incrementsOf_same_stats (host : Host) (fs fs' : FileSystem) (directoryPath : string)
    (files : list string) :
  (forall file,
     statSync fs' (Path.join directoryPath file) =
     statSync fs (Path.join directoryPath file)) ->
  incrementsOf host fs' directoryPath files = incrementsOf host fs directoryPath files.
Proof.
  intro Hsame. unfold incrementsOf. apply flat_map_ext. intro file.
  unfold classify. now rewrite Hsame.
Qed.

(** X12.  The numbers [countFileTypes] finds do not depend on the order in
    which the directory lists its children: two listings of the same
    children give objects that read the same at every property name.
    (Only the order of the properties can differ.) *)
Theorem countFileTypes_listing_order
    (host : Host) (fs fs' : FileSystem) (directoryPath : string)
    (files files' : list string) :
  readdirSync fs directoryPath = Normal files ->
  readdirSync fs' directoryPath = Normal files' ->
  Permutation files files' ->
  (forall file,
     statSync fs' (Path.join directoryPath file) =
     statSync fs (Path.join directoryPath file)) ->
  exists counts counts',
    countFileTypes host fs directoryPath = Normal counts /\
    countFileTypes host fs' directoryPath = Normal counts' /\
    forall key, Counts.get key counts = Counts.get key counts'.
Proof.
  intros Hlist Hlist' Hperm Hsame.
  eexists _, _.
  split; [exact (countFileTypes_readable host _ _ Hlist)|].
  split; [exact (countFileTypes_readable host _ _ Hlist')|].
  intro key. rewrite !get_incrementAll.
  rewrite (incrementsOf_same_stats host fs fs' directoryPath files' Hsame).
  assert (Hocc : occurrences key (incrementsOf host fs directoryPath files) =
                 occurrences key (incrementsOf host fs directoryPath files')).
  { apply occurrences_perm. unfold incrementsOf.
    now apply Permutation_flat_map. }
  now rewrite Hocc.
Qed.

Lemma countFileTypes_listing_order_witness :
  exists counts counts',
    countFileTypes Sample.host Sample.disk "/w/d" = Normal counts /\
    countFileTypes Sample.host
      {| statSync := Sample.statOf;
         readdirSync := fun _ => Normal ["sub"; "c.md"; "b.txt"; "a.txt"];
         existsSync := fun _ => true |} "/w/d" = Normal counts' /\
    forall key, Counts.get key counts = Counts.get key counts'.
Proof.
  apply (@countFileTypes_listing_order Sample.host Sample.disk
           {| statSync := Sample.statOf;
              readdirSync := fun _ => Normal ["sub"; "c.md"; "b.txt"; "a.txt"];
              existsSync := fun _ => true |}
           "/w/d" ["a.txt"; "b.txt"; "c.md"; "sub"]
           ["sub"; "c.md"; "b.txt"; "a.txt"] eq_refl eq_refl).
  - change ["sub"; "c.md"; "b.txt"; "a.txt"]
      with (rev ["a.txt"; "b.txt"; "c.md"; "sub"]).
    apply Permutation_rev.
  - reflexivity.
Defined.

Lemma sumN_perm (l l' : list N) :
  Permutation l l' -> sumN l = sumN l'.
Proof.
  intro Hperm. induction Hperm as [|x l l' _ IH|x y l|l l' l'' _ IH1 _ IH2].
  - reflexivity.
  - cbn [sumN fold_right]. fold (sumN l). fold (sumN l'). now rewrite IH.
  - cbn [sumN fold_right]. fold (sumN l). lia.
  - congruence.
Qed.

(** X13.  [calculateDirSize] never throws, and for a directory that can
    be listed its result does not depend on the order of the listing. *)
Theorem calculateDirSize_listing_order
    (fs : FileSystem) (dirPath : string) :
  (exists total, calculateDirSize fs dirPath = Normal total) /\
  (forall (fs' : FileSystem) (files files' : list string),
     readdirSync fs dirPath = Normal files ->
     readdirSync fs' dirPath = Normal files' ->
     Permutation files files' ->
     (forall file,
        statSync fs' (Path.join dirPath file) =
        statSync fs (Path.join dirPath file)) ->
     calculateDirSize fs' dirPath = calculateDirSize fs dirPath).
Proof.
  split.
  - destruct (readdirSync fs dirPath) as [files|error] eqn:Hlist.
    + eexists. exact (calculateDirSize_sum _ _ Hlist).
    + eexists. exact (calculateDirSize_unreadable _ _ Hlist).
  - intros fs' files files' Hlist Hlist' Hperm Hsame.
    rewrite (calculateDirSize_sum _ _ Hlist),
            (calculateDirSize_sum _ _ Hlist').
    f_equal. apply sumN_perm.
    replace (map (childSize fs' dirPath) files')
      with (map (childSize fs dirPath) files')
      by (apply map_ext; intro file; unfold childSize; now rewrite Hsame).
    apply Permutation_map. now symmetry.
Qed.

Lemma calculateDirSize_listing_order_witness :
  calculateDirSize
    {| statSync := Sample.statOf;
       readdirSync := fun _ => Normal ["sub"; "c.md"; "b.txt"; "a.txt"];
       existsSync := fun _ => true |} "/w/d" =
  calculateDirSize Sample.disk "/w/d".
Proof.
  apply (proj2 (calculateDirSize_listing_order Sample.disk "/w/d")
           {| statSync := Sample.statOf;
              readdirSync := fun _ => Normal ["sub"; "c.md"; "b.txt"; "a.txt"];
              existsSync := fun _ => true |}
           ["a.txt"; "b.txt"; "c.md"; "sub"]
           ["sub"; "c.md"; "b.txt"; "a.txt"] eq_refl eq_refl).
  - change ["sub"; "c.md"; "b.txt"; "a.txt"]
      with (rev ["a.txt"; "b.txt"; "c.md"; "sub"]).
    apply Permutation_rev.
  - reflexivity.
Defined.

(* ================================================================== *)
(** ** Extensions that differ in case *)

Lemma two_in_filter (A : Type) (p : A -> bool) (l : list A) (a b : A) :
  NoDup l -> In a l -> In b l -> a <> b -> p a = true -> p b = true ->
  2 <= List.length (filter p l).
Proof.
  intros Hnd Ha Hb Hne Hpa Hpb.
  induction l as [|x l IH]; [contradiction|].
  inversion Hnd as [|? ? Hnotin Hnd']; subst.
  assert (Hone : forall c, In c l -> p c = true ->
                           1 <= List.length (filter p l)).
  { intros c Hc Hpc.
    assert (Hin : In c (filter p l)) by (apply filter_In; auto).
    destruct (filter p l); [contradiction | cbn; lia]. }
  cbn [filter]. destruct Ha as [-> | Ha], Hb as [-> | Hb].
  - contradiction.
  - rewrite Hpa. cbn [List.length]. pose proof (Hone b Hb Hpb). lia.
  - rewrite Hpb. cbn [List.length]. pose proof (Hone a Ha Hpa). lia.
  - pose proof (IH Hnd' Ha Hb). destruct (p x); cbn [List.length]; lia.
Qed.

(** X14.  Two different children of a listed directory that are both
    files and whose extensions have the same lower-case form (Notes.TXT
    and a.txt, say) are counted in one and the same bucket, the one named
    by that lower-case form (or "no-extension" when it is empty), so its
    count is at least 2. *)
Theorem extensions_differing_in_case_share_a_bucket
    (host : Host) (fs : FileSystem) (directoryPath : string)
    (files : list string) (file1 file2 : string) (stats1 stats2 : Stats) :
  readdirSync fs directoryPath = Normal files ->
  NoDup files ->
  In file1 files -> In file2 files -> file1 <> file2 ->
  statSync fs (Path.join directoryPath file1) = Normal stats1 ->
  isDirectory stats1 = false ->
  statSync fs (Path.join directoryPath file2) = Normal stats2 ->
  isDirectory stats2 = false ->
  toLowerCase host (Path.extname file1) =
    toLowerCase host (Path.extname file2) ->
  let extension := toLowerCase host (Path.extname file1) in
  let bucket := if truthy extension then extension else "no-extension" in
  exists counts n,
    countFileTypes host fs directoryPath = Normal counts /\
    Counts.get bucket counts = Some n /\
    (2 <= n)%N.
Proof.
  intros Hlist Hnd Hin1 Hin2 Hne Hstat1 Hfile1 Hstat2 Hfile2 Hsame
    extension bucket.
  destruct (countFileTypes_get host fs directoryPath Hlist)
    as (counts & Hrun & _ & _ & _ & Hkeys).
  assert (Hc1 : classify host fs directoryPath file1 = ChildFile extension)
    by (unfold classify; now rewrite Hstat1, Hfile1).
  assert (Hc2 : classify host fs directoryPath file2 = ChildFile extension)
    by (unfold classify; rewrite Hstat2, Hfile2; unfold extension;
        now rewrite Hsame).
  assert (Hb : bucket = bucketOf extension) by reflexivity.
  pose proof (bucket_is_no_counter _ _ _ _ Hc1) as [Hcounter _].
  rewrite <- Hb in Hcounter. unfold isCounter in Hcounter.
  apply orb_false_elim in Hcounter. destruct Hcounter as [Hd Hf].
  apply String.eqb_neq in Hd, Hf.
  assert (Htwo : (2 <= countChildren host fs directoryPath
                         (isFileInBucket bucket) files)%N).
  { unfold countChildren.
    pose proof (@two_in_filter _
                  (fun file => isFileInBucket bucket
                                 (classify host fs directoryPath file))
                  files file1 file2 Hnd Hin1 Hin2 Hne) as H.
    cbv beta in H. rewrite Hc1, Hc2 in H. cbn [isFileInBucket] in H.
    rewrite <- Hb, String.eqb_refl in H.
    specialize (H eq_refl eq_refl). lia. }
  exists counts. eexists. split; [exact Hrun|].
  rewrite (Hkeys bucket Hd Hf).
  destruct (countChildren host fs directoryPath (isFileInBucket bucket) files
              =? 0)%N eqn:Z; [apply N.eqb_eq in Z; lia|].
  split; [reflexivity | exact Htwo].
Qed.

Lemma extensions_differing_in_case_share_a_bucket_witness :
  exists counts n,
    countFileTypes Sample.host Sample.mixedDisk "/t" = Normal counts /\
    Counts.get ".js" counts = Some n /\
    (2 <= n)%N.
Proof.
  apply (@extensions_differing_in_case_share_a_bucket Sample.host
           Sample.mixedDisk "/t" Sample.mixedListing "c.js" "e.JS"
           (Sample.stats false 100) (Sample.stats false 100) eq_refl).
  - unfold Sample.mixedListing.
    repeat (constructor; [cbn; intuition discriminate|]). constructor.
  - cbn; tauto.
  - cbn; tauto.
  - discriminate.
  - reflexivity.
  - reflexivity.
  - reflexivity.
  - reflexivity.
  - reflexivity.
Defined.

(** An upper-case extension lands in the lower-case bucket. *)
Example countFileTypes_folds_case :
  countFileTypes Sample.host MoreSamples.disk "/e.d" =
    Normal [("directories", 0%N); ("files", 2%N); ("no-extension", 1%N);
            (".txt", 1%N)].
Proof. vm_compute. reflexivity. Qed.

(* ================================================================== *)
(** ** More on descriptions and sizes *)

Lemma formatPath_length_le (p : string) :
  String.length (formatPath p) <= 40.
Proof.
  unfold formatPath, maxLength.
  destruct (Nat.leb (String.length p) 40) eqn:E.
  - now apply Nat.leb_le.
  - apply Nat.leb_gt in E. change (40 / 2 - 3) with 17.
    unfold substring, substringFrom.
    replace (String.length p - (String.length p - 17)) with 17 by lia.
    rewrite !length_append, !length_substring by lia. cbn. lia.
Qed.

(** X15.  [formatPath] never returns more than 40 characters, and
    formatting twice is formatting once. *)
Theorem formatPath_bounded_idempotent (p : string) :
  String.length (formatPath p) <= 40 /\
  formatPath (formatPath p) = formatPath p.
Proof.
  split; [apply formatPath_length_le|].
  pose proof (formatPath_length_le p) as H.
  apply Nat.leb_le in H. unfold formatPath at 1. unfold maxLength.
  now rewrite H.
Qed.

(** X16.  In a [DirectoryItem] the tooltip, when there is one, is the
    whole path the item was built with; the description, when there is
    one, is the formatted directory part of that path, is at most 40
    characters long, and is left out when the directory part is ".".
    An item built without a path has neither. *)
Theorem newDirectoryItem_tooltip_description
    (text : string) (state : TreeItemCollapsibleState)
    (path context : option string) :
  (forall t,
     tooltip (newDirectoryItem text state path context) = Some t ->
     path = Some t /\ t <> "") /\
  (forall d,
     description (newDirectoryItem text state path context) = Some d ->
     String.length d <= 40 /\
     exists p,
       path = Some p /\ p <> "" /\
       Path.dirname p <> "." /\ d = formatPath (Path.dirname p)) /\
  (path = None ->
   tooltip (newDirectoryItem text state path context) = None /\
   description (newDirectoryItem text state path context) = None).
Proof.
  unfold newDirectoryItem. cbn [tooltip description].
  split; [|split].
  - intros t H. destruct path as [[|c p]|]; cbn in H; try discriminate.
    injection H as <-. split; [reflexivity | discriminate].
  - intros d H. destruct path as [[|c p]|]; cbn [truthy] in H;
      try discriminate.
    destruct (String.eqb (Path.dirname (String c p)) ".") eqn:E;
      cbn [negb] in H; [discriminate|].
    injection H as <-. split; [apply formatPath_length_le|].
    exists (String c p). split; [reflexivity|]. split; [discriminate|].
    split; [now apply String.eqb_neq | reflexivity].
  - intros ->. split; reflexivity.
Qed.

Lemma newDirectoryItem_tooltip_description_witness :
  String.length "/home/user/projec...ens/src/test/data" <= 40 /\
  exists p,
    Some "/home/user/projects/codelens/src/test/data/file.txt" = Some p /\
    p <> "" /\
    Path.dirname p <> "." /\
    "/home/user/projec...ens/src/test/data" = formatPath (Path.dirname p).
Proof.
  apply (proj1 (proj2 (newDirectoryItem_tooltip_description "File: file.txt"
                         CollapsibleNone
                         (Some "/home/user/projects/codelens/src/test/data/file.txt")
                         (Some "file")))).
  reflexivity.
Defined.

(** X17.  The number printed before "KB" lies between 1.0 and 1024.0, and
    so does the number printed before "MB": the unit is chosen on the byte
    count, before rounding, so 1024.0 is reached just below the next
    threshold.  The number before "GB" is at least 1.0. *)
Theorem formatSize_printed_range (b : N) :
  ((1024 <= b < 1048576)%N ->
   exists n, formatSize b = (oneDecimal n ++ " KB")%string /\
             (10 <= n <= 10240)%N) /\
  ((1048576 <= b < 1073741824)%N ->
   exists n, formatSize b = (oneDecimal n ++ " MB")%string /\
             (10 <= n <= 10240)%N) /\
  ((1073741824 <= b)%N ->
   exists n, formatSize b = (oneDecimal n ++ " GB")%string /\
             (10 <= n)%N) /\
  formatSize (1048576 - 1) = "1024.0 KB" /\
  formatSize (1073741824 - 1) = "1024.0 MB".
Proof.
  unfold formatSize.
  change (1024 * 1024 * 1024)%N with 1073741824%N.
  change (1024 * 1024)%N with 1048576%N.
  split; [|split; [|split; [|split; vm_compute; reflexivity]]].
  - intros [Hlo Hhi].
    assert (H1 : (b <? 1024)%N = false) by (apply N.ltb_ge; exact Hlo).
    pose proof Hhi as H2. apply N.ltb_lt in H2. rewrite H1, H2.
    exists (nearestTenth b 1024). split; [reflexivity|].
    assert (Hn : NearestTenth (nearestTenth b 1024) b 1024)
      by (apply nearestTenth_nearest; lia).
    unfold NearestTenth in Hn. lia.
  - intros [Hlo Hhi].
    assert (H1 : (b <? 1024)%N = false) by (apply N.ltb_ge; lia).
    assert (H2 : (b <? 1048576)%N = false) by (apply N.ltb_ge; exact Hlo).
    pose proof Hhi as H3. apply N.ltb_lt in H3. rewrite H1, H2, H3.
    exists (nearestTenth b 1048576). split; [reflexivity|].
    assert (Hn : NearestTenth (nearestTenth b 1048576) b 1048576)
      by (apply nearestTenth_nearest; lia).
    unfold NearestTenth in Hn. lia.
  - intro Hlo.
    assert (H1 : (b <? 1024)%N = false) by (apply N.ltb_ge; lia).
    assert (H2 : (b <? 1048576)%N = false) by (apply N.ltb_ge; lia).
    assert (H3 : (b <? 1073741824)%N = false) by (apply N.ltb_ge; exact Hlo).
    rewrite H1, H2, H3.
    exists (nearestTenth b 1073741824). split; [reflexivity|].
    assert (Hn : NearestTenth (nearestTenth b 1073741824) b 1073741824)
      by (apply nearestTenth_nearest; lia).
    unfold NearestTenth in Hn. lia.
Qed.

Lemma formatSize_printed_range_witness :
  exists n, formatSize 2000 = (oneDecimal n ++ " KB")%string /\
            (10 <= n <= 10240)%N.
Proof.
  apply (proj1 (formatSize_printed_range 2000)). lia.
Defined.

(* ================================================================== *)
(** ** The minimal provider *)

(** X18.  The minimal provider never throws and never returns more than
    one row.  Without a workspace root it returns no row and shows
    "No workspace folder open", on every call, nested or not; with one it
    shows nothing, and returns the row "Current Directory: <name>" at the
    top level and no row below it. *)
Theorem simple_getChildren_cases
    (this : Simple.SimpleDirectoryProvider)
    (element : option Simple.DirectoryItem) (shown : list string) :
  (truthyOpt (Simple.workspaceRoot this) = false ->
   Simple.getChildren this element shown =
     (Normal [], shown ++ ["No workspace folder open"])) /\
  (forall root,
     Simple.workspaceRoot this = Some root -> truthy root = true ->
     Simple.getChildren this element shown =
       (Normal
          (match element with
           | None =>
               [Simple.mkDirectoryItem
                  ("Current Directory: " ++ Path.basename root)
                  CollapsibleNone]
           | Some _ => []
           end),
        shown)) /\
  exists rows shown',
    Simple.getChildren this element shown = (Normal rows, shown') /\
    List.length rows <= 1.
Proof.
  unfold Simple.getChildren, Simple.showInformationMessage, Eff.bind,
    Eff.modify, Eff.ret.
  split; [|split].
  - intros ->. reflexivity.
  - intros root Hroot Htruthy. unfold truthyOpt. rewrite Hroot, Htruthy.
    destruct element; reflexivity.
  - destruct (truthyOpt (Simple.workspaceRoot this)); cbn [negb].
    + destruct element; [eexists _, _; split; [reflexivity | cbn; lia]|].
      destruct (Simple.workspaceRoot this);
        eexists _, _; (split; [reflexivity | cbn; lia]).
    + eexists _, _; split; [reflexivity | cbn; lia].
Qed.

Lemma simple_getChildren_cases_witness :
  Simple.getChildren (Simple.activate (Some [])) None [] =
    (Normal [], [] ++ ["No workspace folder open"]) /\
  Simple.getChildren (Simple.activate (Some [mkUri "/w/d"; mkUri "/e"]))
    None [] =
    (Normal [Simple.mkDirectoryItem
               ("Current Directory: " ++ Path.basename "/w/d")
               CollapsibleNone], []).
Proof.
  split.
  - apply (proj1 (simple_getChildren_cases (Simple.activate (Some []))
                    None [])).
    reflexivity.
  - apply (proj1 (proj2 (simple_getChildren_cases
                           (Simple.activate (Some [mkUri "/w/d"; mkUri "/e"]))
                           None [])) "/w/d"); reflexivity.
Defined.

(* ================================================================== *)
(** ** The permission digits *)

Lemma below_512_listed (bits : N) :
  (bits < 512)%N -> In bits (map N.of_nat (seq 0 512)).
Proof.
  intro Hlt. apply in_map_iff. exists (N.to_nat bits).
  split; [apply N2Nat.id|]. apply in_seq. lia.
Qed.

Lemma octalDigitsRoundTrip_all (bits : N) :
  (bits < 512)%N -> octalDigitsRoundTrip bits = true.
Proof.
  intro Hlt.
  assert (Hall : forallb octalDigitsRoundTrip (map N.of_nat (seq 0 512))
                 = true) by (vm_compute; reflexivity).
  rewrite forallb_forall in Hall. apply Hall. now apply below_512_listed.
Qed.

(** X19.  The "Permissions" row shows the low nine bits of the mode and
    nothing else: its digits are one to three octal digits that read back
    as [mode mod 512]; they are not padded (the first digit is 0 only when
    the digits are "0" alone); and two modes that agree on those bits
    give the same digits. *)
Theorem permissions_show_low_nine_bits (mode : N) :
  1 <= String.length (toOctalString (N.land mode 511)) <= 3 /\
  parseOctal (toOctalString (N.land mode 511)) = Some (mode mod 512)%N /\
  (toOctalString (N.land mode 511) = "0" \/
   String.prefix "0" (toOctalString (N.land mode 511)) = false) /\
  (forall mode' : N,
     (mode' mod 512 = mode mod 512)%N ->
     toOctalString (N.land mode' 511) = toOctalString (N.land mode 511)).
Proof.
  assert (Hland : forall m, N.land m 511 = (m mod 512)%N).
  { intro m. change 511%N with (N.ones 9). rewrite N.land_ones.
    reflexivity. }
  assert (Hlt : (mode mod 512 < 512)%N) by (apply N.mod_lt; lia).
  pose proof (octalDigitsRoundTrip_all Hlt) as Hcheck.
  unfold octalDigitsRoundTrip in Hcheck.
  apply andb_prop in Hcheck. destruct Hcheck as [Hcheck Hpad].
  apply andb_prop in Hcheck. destruct Hcheck as [Hlen Hparse].
  apply andb_prop in Hlen. destruct Hlen as [Hlo Hhi].
  apply Nat.leb_le in Hlo, Hhi.
  rewrite Hland. split; [lia|]. split; [|split].
  - destruct (parseOctal (toOctalString (mode mod 512))) as [value|];
      [|discriminate].
    apply N.eqb_eq in Hparse. now subst.
  - apply orb_prop in Hpad. destruct Hpad as [Hzero | Hnopad].
    + left. now apply String.eqb_eq.
    + right. now apply negb_true_iff.
  - intros mode' Hsame. now rewrite Hland, Hsame.
Qed.

Lemma permissions_show_low_nine_bits_witness :
  toOctalString (N.land 16877 511) = toOctalString (N.land 33261 511).
Proof.
  apply (proj2 (proj2 (proj2 (permissions_show_low_nine_bits 33261%N)))
           16877%N).
  reflexivity.
Defined.

(** A regular file with mode 100644 shows 644; mode 40007 (a directory
    open to others only) shows 7, not 007. *)
Example permissions_samples :
  map (fun mode => toOctalString (N.land mode 511)) [33188; 16391; 32768]%N =
  ["644"; "7"; "0"].
Proof. vm_compute. reflexivity. Qed.

(* ================================================================== *)
(** ** What the ranking keeps *)

Lemma firstn_incl (A : Type) (n : nat) (l : list A) (x : A) :
  In x (firstn n l) -> In x l.
Proof.
  intro Hin. rewrite <- (firstn_skipn n l). apply in_or_app. now left.
Qed.

(** X20.  Whatever object is ranked, the entries kept for the
    "Common types" row are at most three, are entries of the object, and
    are never one of the sentinel properties "directories", "files",
    "no-extension" and "error"; the error object yields none. *)
Theorem topExtensions_excludes_sentinels (counts : Counts) :
  List.length (topExtensions counts) <= 3 /\
  Forall (fun entry => In entry counts /\ isSentinel (fst entry) = false)
    (topExtensions counts) /\
  topExtensions [("error", 1%N)] = [].
Proof.
  split; [apply firstn_le_length|]. split; [|reflexivity].
  apply Forall_forall. intros entry Hin.
  rewrite topExtensions_keep in Hin. apply firstn_incl in Hin.
  apply (Permutation_in _ (sort_perm byCountDescending _)) in Hin.
  apply filter_In in Hin. destruct Hin as [Hin Hkeep]. split; [exact Hin|].
  unfold keepExtension in Hkeep. now apply negb_true_iff in Hkeep.
Qed.
